(** * Turn-taking orchestration of the chat web UI ([web_chat.py])

    A shallow embedding of [ChatApp] and of the event wiring of [main]:
    the generator callbacks [process_query] and
    [gradio_sentence_generator_wrapper], [clear_session],
    [update_system_prompt] and the small helpers they call.

    Conventions.
    - A Python [str] is a [string]; every character stands for the code
      point of the same number.
    - A Python [int] is a [Z]; a Python [float] (temperature, speed) is
      carried around as a [Q], the code never computes with it.
    - A method is a computation in the monad [M]: it reads and writes the
      application object, may raise, and leaves a trace of what it did
      (values yielded, lock operations, calls to collaborators, log lines).
      A generator is run to exhaustion by its consumer, one callback at a
      time; the list of values it yields is read off the trace, each value
      as it is at the moment of the [yield].
    - Collaborators that live outside the file ([AskLLM], [WebAppBase])
      are variables of the section. Only classes derived from [Exception]
      are modelled as raised values, these are what the [except] clauses
      of the file handle. *)

From Stdlib Require Import String Ascii List ZArith QArith Bool Lia DecimalString.
Import ListNotations.

Local Close Scope Q_scope.
Local Open Scope Z_scope.
Local Open Scope list_scope.
Local Open Scope string_scope.

(** ** Python values used by the file *)

(** Raised values: [StopIteration], which the playback wrapper tells apart,
    and any other exception, known by its [str(e)]. *)
Inductive Exception : Type :=
| StopIteration
| Error (text : string).

Definition str (e : Exception) : string :=
  match e with
  | StopIteration => ""
  | Error text => text
  end.

Inductive Result (A : Type) : Type :=
| Ok (a : A)
| Raise (e : Exception).
Arguments Ok {A} a.
Arguments Raise {A} e.

(** [str.isspace] on the code points below 256. *)
Definition is_space (c : ascii) : bool :=
  let n := nat_of_ascii c in
  (((9 <=? n) && (n <=? 13)) || ((28 <=? n) && (n <=? 32))
   || (n =? 133) || (n =? 160))%nat.

Fixpoint lstrip_chars (s : list ascii) : list ascii :=
  match s with
  | [] => []
  | c :: rest => if is_space c then lstrip_chars rest else s
  end.

Definition lstrip (s : string) : string :=
  string_of_list_ascii (lstrip_chars (list_ascii_of_string s)).

Definition rstrip (s : string) : string :=
  string_of_list_ascii (rev (lstrip_chars (rev (list_ascii_of_string s)))).

(** [str.strip()] with no argument. *)
Definition strip (s : string) : string := rstrip (lstrip s).

(** Truth value of a string and of a list: empty is false. *)
Definition truthy_str (s : string) : bool :=
  match s with
  | EmptyString => false
  | String _ _ => true
  end.

Definition truthy_list {A : Type} (l : list A) : bool :=
  match l with
  | [] => false
  | _ :: _ => true
  end.

(** [str(n)] for an integer. *)
Definition str_of_int (n : Z) : string := NilZero.string_of_int (Z.to_int n).

(** [len(l)]. *)
Definition len {A : Type} (l : list A) : Z := Z.of_nat (length l).

(** [l[-1]], when there is one. *)
Fixpoint last_item {A : Type} (l : list A) : option A :=
  match l with
  | [] => None
  | [x] => Some x
  | _ :: rest => last_item rest
  end.

(** [needle in haystack] for strings. *)
Definition contains (needle haystack : string) : bool :=
  match index 0 needle haystack with
  | Some _ => true
  | None => false
  end.

(** An entry of the chat: [{"role": ..., "content": ...}]. *)
Record Message : Type := { role : string; content : string }.

(** A synthesized chunk: sample rate and samples. *)
Definition AudioTuple : Type := (Z * list Z)%type.

(** What a handler hands to the status text box: [None], a plain string,
    or [gr.update(value=...)]. *)
Inductive StatusOut : Type :=
| status_None
| status_str (s : string)
| status_update (value : string).

(** What a handler hands to the chat display and to the audio player. *)
Inductive ChatbotOut : Type :=
| chatbot_raw (messages : list Message)
| chatbot_update (value : list Message).

Inductive AudioOut : Type :=
| audio_raw (audio : option AudioTuple)
| audio_update (value : option AudioTuple).

(** The global [llm_config] object. *)
Record LLMConfig : Type := {
  SYSTEM_MESSAGE : string;
  TEMPERATURE : Q
}.

(** The six values [process_query] yields, in the order of
    [process_outputs]. *)
Record ProcessUpdate : Type := {
  pu_messages : list Message;
  pu_status : StatusOut;
  pu_start : Z;
  pu_end : Z;
  pu_active : bool;
  pu_audio : option AudioTuple
}.

(** The four values the playback wrapper yields, in the order of
    [loop_outputs]: status, next index, active, audio. *)
Record LoopUpdate : Type := {
  lu_status : StatusOut;
  lu_index : Z;
  lu_active : bool;
  lu_audio : option AudioTuple
}.

(** ** Traces *)

Inductive Call : Type :=
| llm_query_call (query : string)
| clear_history_call
| split_text_into_sentences_call (text : string)
| sentence_generator_loop_call
    (start_index end_index : Z) (active : bool) (temperature speed_factor : Q)
| next_call
| AskLLM_call (resolved_model_alias : string)
| super_clear_session_call.

(** An assignment to an attribute of the application object or of
    [llm_config]; [ui_messages.append] changes the list in place. An
    [AskLLM] object is opaque, the assignment of one carries no value. *)
Inductive Assignment : Type :=
| to_sentences (v : list string)
| to_audio_segments (v : list AudioTuple)
| to_ui_messages (v : list Message)
| ui_messages_append (m : Message)
| to_current_status (v : string)
| to_SYSTEM_MESSAGE (v : string)
| to_TEMPERATURE (v : Q)
| to_llm.

Inductive Event (Y : Type) : Type :=
| Yield (y : Y)
| LockAcquire
| LockRelease
| Wrote (a : Assignment)
| Called (c : Call)
| Logged (level : string) (msg : string).
Arguments Wrote {Y} a.
Arguments Yield {Y} y.
Arguments LockAcquire {Y}.
Arguments LockRelease {Y}.
Arguments Called {Y} c.
Arguments Logged {Y} level msg.

Fixpoint yields {Y : Type} (t : list (Event Y)) : list Y :=
  match t with
  | [] => []
  | Yield y :: rest => y :: yields rest
  | _ :: rest => yields rest
  end.

Fixpoint calls {Y : Type} (t : list (Event Y)) : list Call :=
  match t with
  | [] => []
  | Called c :: rest => c :: calls rest
  | _ :: rest => calls rest
  end.

Definition is_generator_call (c : Call) : bool :=
  match c with
  | sentence_generator_loop_call _ _ _ _ _ => true
  | next_call => true
  | _ => false
  end.

Fixpoint writes {Y : Type} (t : list (Event Y)) : list Assignment :=
  match t with
  | [] => []
  | Wrote a :: rest => a :: writes rest
  | _ :: rest => writes rest
  end.

(** The attributes the lock of the base class is there for, the two
    shared lists, and the ones [update_system_prompt] assigns under it. *)
Definition is_shared_list (a : Assignment) : bool :=
  match a with
  | to_sentences _ => true
  | to_audio_segments _ => true
  | _ => false
  end.


Definition is_yield_or_call {Y : Type} (ev : Event Y) : bool :=
  match ev with
  | Yield _ => true
  | Called _ => true
  | _ => false
  end.


(** A trace keeps the lock discipline, from a state where the lock is
    [held] or not: the lock is taken only when free and released only when
    held, it is free at the end, every assignment that is [guarded]
    happens while it is held, and no event that must stay [outside]
    happens while it is held. *)
Fixpoint lock_discipline {Y : Type} (guarded : Assignment -> bool)
    (outside : Event Y -> bool) (held : bool) (t : list (Event Y)) : bool :=
  match t with
  | [] => negb held
  | LockAcquire :: rest =>
      negb held && lock_discipline guarded outside true rest
  | LockRelease :: rest =>
      held && lock_discipline guarded outside false rest
  | Wrote a :: rest =>
      (held || negb (guarded a))
      && negb (held && outside (Wrote a))
      && lock_discipline guarded outside held rest
  | ev :: rest =>
      negb (held && outside ev)
      && lock_discipline guarded outside held rest
  end.

(** ** The application object and its collaborators *)

Section ChatApp.

(** An [AskLLM] object is opaque. *)
Context {LLM : Type}.

(** The attributes [ChatApp] inherits from [WebAppBase] and uses here.
    [llm] is [None] when the attribute is missing ([hasattr] is false). *)
Record WebAppBase : Type := {
  llm : option LLM;
  sentences : list string;
  audio_segments : list AudioTuple;
  current_model : string;
  current_voice : string;
  current_resolved_alias : string
}.

(** The attributes of [ChatApp] itself. A component is [true] once [main]
    has bound it, [false] while it is still the class default [None]. *)
Record ChatApp : Type := {
  base : WebAppBase;
  status_output_component : bool;
  chatbot_component : bool;
  audio_output_component : bool;
  current_status : string;
  ui_messages : list Message
}.

(** Everything a callback can read or write: the application object and
    the module-level [llm_config]. *)
Record World : Type := {
  self : ChatApp;
  llm_config : LLMConfig
}.

(** One [next()] on the generator of the base class: what it does to the
    world while it runs, and the pair it yields. *)
Record GenItem : Type := {
  gen_effect : World -> World;
  gen_active : bool;
  gen_audio : option AudioTuple
}.

(** A generator that comes to an end: the items it yields, then the
    exception of the last [next()] ([StopIteration] when it is exhausted)
    and what that last call did to the world. *)
Record Generator : Type := {
  gen_items : list GenItem;
  gen_last_effect : World -> World;
  gen_end : Exception
}.

(** [self.llm.query(query, plaintext_output=True, stream=False)]: reads the
    global configuration, answers or raises, and updates the LLM object. *)
Variable llm_query : LLM -> LLMConfig -> string -> Result string * LLM.

(** [hasattr(self.llm, "history_manager")] and
    [self.llm.history_manager.clear_history()]. *)
Variable has_history_manager : LLM -> bool.
Variable clear_history : LLM -> LLM.

(** [AskLLM(resolved_model_alias=..., config=llm_config)]. *)
Variable AskLLM : string -> LLMConfig -> Result LLM.

(** [self.split_text_into_sentences(text)] of the base class, which the
    spec gives as a function from a text to a sequence of sentences; it
    is called inside the [try] of [process_query] and may raise. *)
Variable split_text_into_sentences : string -> Result (list string).

(** [self.sentence_generator_loop(start, end, active, temperature, speed)]
    of the base class, which the spec gives as a sequence of pairs
    (active, audio). *)
Variable sentence_generator_loop :
  World -> Z -> Z -> bool -> Q -> Q -> Generator.

(** [super().clear_session()], on the attributes of the base class. *)
Variable super_clear_session : WebAppBase -> WebAppBase.

(** [self.interrupt_and_reset()] of the base class: a status and a new
    world. *)
Variable interrupt_and_reset : World -> StatusOut * World.

(** *** Attribute assignment *)

Definition with_base (f : WebAppBase -> WebAppBase) (w : World) : World :=
  {| self :=
       {| base := f (base (self w));
          status_output_component := status_output_component (self w);
          chatbot_component := chatbot_component (self w);
          audio_output_component := audio_output_component (self w);
          current_status := current_status (self w);
          ui_messages := ui_messages (self w) |};
     llm_config := llm_config w |}.

Definition assign_llm (v : option LLM) : World -> World :=
  with_base (fun b =>
    {| llm := v; sentences := sentences b;
       audio_segments := audio_segments b; current_model := current_model b;
       current_voice := current_voice b;
       current_resolved_alias := current_resolved_alias b |}).

Definition assign_sentences (v : list string) : World -> World :=
  with_base (fun b =>
    {| llm := llm b; sentences := v;
       audio_segments := audio_segments b; current_model := current_model b;
       current_voice := current_voice b;
       current_resolved_alias := current_resolved_alias b |}).

Definition assign_audio_segments (v : list AudioTuple) : World -> World :=
  with_base (fun b =>
    {| llm := llm b; sentences := sentences b;
       audio_segments := v; current_model := current_model b;
       current_voice := current_voice b;
       current_resolved_alias := current_resolved_alias b |}).

Definition assign_current_status (v : string) (w : World) : World :=
  {| self :=
       {| base := base (self w);
          status_output_component := status_output_component (self w);
          chatbot_component := chatbot_component (self w);
          audio_output_component := audio_output_component (self w);
          current_status := v;
          ui_messages := ui_messages (self w) |};
     llm_config := llm_config w |}.

Definition assign_ui_messages (v : list Message) (w : World) : World :=
  {| self :=
       {| base := base (self w);
          status_output_component := status_output_component (self w);
          chatbot_component := chatbot_component (self w);
          audio_output_component := audio_output_component (self w);
          current_status := current_status (self w);
          ui_messages := v |};
     llm_config := llm_config w |}.

Definition assign_SYSTEM_MESSAGE (v : string) (w : World) : World :=
  {| self := self w;
     llm_config := {| SYSTEM_MESSAGE := v;
                      TEMPERATURE := TEMPERATURE (llm_config w) |} |}.

Definition assign_TEMPERATURE (v : Q) (w : World) : World :=
  {| self := self w;
     llm_config := {| SYSTEM_MESSAGE := SYSTEM_MESSAGE (llm_config w);
                      TEMPERATURE := v |} |}.

(** *** The monad of callbacks *)

Record Run (Y A : Type) : Type := {
  outcome : Result A;
  world : World;
  trace : list (Event Y)
}.
Arguments outcome {Y A} r.
Arguments world {Y A} r.
Arguments trace {Y A} r.

Definition M (Y A : Type) : Type := World -> Run Y A.

Definition ret {Y A : Type} (a : A) : M Y A :=
  fun w => {| outcome := Ok a; world := w; trace := [] |}.

Definition raise {Y A : Type} (e : Exception) : M Y A :=
  fun w => {| outcome := Raise e; world := w; trace := [] |}.

Definition bind {Y A B : Type} (m : M Y A) (k : A -> M Y B) : M Y B :=
  fun w =>
    let r := m w in
    match outcome r with
    | Ok a =>
        let r' := k a (world r) in
        {| outcome := outcome r'; world := world r';
           trace := (trace r ++ trace r')%list |}
    | Raise e =>
        {| outcome := Raise e; world := world r; trace := trace r |}
    end.

Notation "x <- c1 ;; c2" := (bind c1 (fun x => c2))
  (at level 61, c1 at next level, right associativity).
Notation "c1 ;; c2" := (bind c1 (fun _ => c2))
  (at level 61, right associativity).

(** [try: body except Exception as e: handler(e)]. *)
Definition try_except {Y A : Type}
    (body : M Y A) (handler : Exception -> M Y A) : M Y A :=
  fun w =>
    let r := body w in
    match outcome r with
    | Ok _ => r
    | Raise e =>
        let r' := handler e (world r) in
        {| outcome := outcome r'; world := world r';
           trace := (trace r ++ trace r')%list |}
    end.

(** [with self.lock: body]; the lock is released on every way out. *)
Definition with_lock {Y A : Type} (body : M Y A) : M Y A :=
  fun w =>
    let r := body w in
    {| outcome := outcome r; world := world r;
       trace := (LockAcquire :: trace r ++ [LockRelease])%list |}.

Definition gets {Y A : Type} (f : World -> A) : M Y A :=
  fun w => {| outcome := Ok (f w); world := w; trace := [] |}.

Definition modify {Y : Type} (f : World -> World) : M Y unit :=
  fun w => {| outcome := Ok tt; world := f w; trace := [] |}.

Definition emit {Y : Type} (ev : Event Y) : M Y unit :=
  fun w => {| outcome := Ok tt; world := w; trace := [ev] |}.

Definition yield {Y : Type} (y : Y) : M Y unit := emit (Yield y).

Definition log {Y : Type} (level msg : string) : M Y unit :=
  emit (Logged level msg).

(** Assignments made by the file leave a [Wrote] event. *)
Definition store {Y : Type} (a : Assignment) (f : World -> World) : M Y unit :=
  fun w => {| outcome := Ok tt; world := f w; trace := [Wrote a] |}.

Definition store_sentences {Y : Type} (v : list string) : M Y unit :=
  store (to_sentences v) (assign_sentences v).

Definition store_audio_segments {Y : Type} (v : list AudioTuple) : M Y unit :=
  store (to_audio_segments v) (assign_audio_segments v).

Definition store_ui_messages {Y : Type} (v : list Message) : M Y unit :=
  store (to_ui_messages v) (assign_ui_messages v).

Definition store_current_status {Y : Type} (v : string) : M Y unit :=
  store (to_current_status v) (assign_current_status v).

Definition store_SYSTEM_MESSAGE {Y : Type} (v : string) : M Y unit :=
  store (to_SYSTEM_MESSAGE v) (assign_SYSTEM_MESSAGE v).

Definition store_TEMPERATURE {Y : Type} (v : Q) : M Y unit :=
  store (to_TEMPERATURE v) (assign_TEMPERATURE v).

Definition store_llm {Y : Type} (v : LLM) : M Y unit :=
  store to_llm (assign_llm (Some v)).

(** ** The methods of [ChatApp] *)

Definition update_status {Y : Type} (message : string) : M Y StatusOut :=
  store_current_status message ;;
  component <- gets (fun w => status_output_component (self w)) ;;
  ret (if component then status_update message else status_None).

Definition stream_audio_response {Y : Type}
    (audio_chunk : option AudioTuple) : M Y (option AudioOut) :=
  component <- gets (fun w => audio_output_component (self w)) ;;
  ret (if component then Some (audio_update audio_chunk) else None).

Definition clear_ui {Y : Type} : M Y (ChatbotOut * AudioOut) :=
  chatbot_component <- gets (fun w => chatbot_component (self w)) ;;
  let chatbot_val :=
    if chatbot_component then chatbot_update [] else chatbot_raw [] in
  audio_output_component <- gets (fun w => audio_output_component (self w)) ;;
  let audio_val :=
    if audio_output_component then audio_update None else audio_raw None in
  ret (chatbot_val, audio_val).

Definition get_answer {Y : Type} (query : string) : M Y string :=
  fun w =>
    match llm (base (self w)) with
    | None => raise (Error "'ChatApp' object has no attribute 'llm'") w
    | Some l =>
        let '(r, l') := llm_query l (llm_config w) query in
        {| outcome := r; world := assign_llm (Some l') w;
           trace := [Called (llm_query_call query)] |}
    end.

Definition call_split_text_into_sentences {Y : Type}
    (text : string) : M Y (list string) :=
  fun w =>
    {| outcome := split_text_into_sentences text; world := w;
       trace := [Called (split_text_into_sentences_call text)] |}.

Definition process_update (status : StatusOut) (start_idx end_idx : Z)
    (active : bool) (audio : option AudioTuple) : M ProcessUpdate unit :=
  messages <- gets (fun w => ui_messages (self w)) ;;
  yield {| pu_messages := messages; pu_status := status;
           pu_start := start_idx; pu_end := end_idx;
           pu_active := active; pu_audio := audio |}.

Definition append_ui_message {Y : Type} (m : Message) : M Y unit :=
  store (ui_messages_append m)
    (fun w => assign_ui_messages (ui_messages (self w) ++ [m])%list w).

(** The generator [process_query]. Its result is the value of its
    [return] statement: the tuple of the early return, which no consumer
    of the generator sees, or nothing. *)
Definition process_query (query : string) (temperature : Q)
    : M ProcessUpdate (option ProcessUpdate) :=
  let processed_query := strip query in
  if negb (truthy_str processed_query) then
    messages <- gets (fun w => ui_messages (self w)) ;;
    status <- gets (fun w => current_status (self w)) ;;
    ret (Some {| pu_messages := messages; pu_status := status_str status;
                 pu_start := 0; pu_end := 0;
                 pu_active := false; pu_audio := None |})
  else
    with_lock (store_sentences [] ;;
               store_audio_segments []) ;;
    let user_message := {| role := "user"; content := processed_query |} in
    append_ui_message user_message ;;
    model <- gets (fun w => current_model (base (self w))) ;;
    status <- update_status ("Processing query with " ++ model ++ "...") ;;
    process_update status 0 0 false None ;;
    try_except
      (store_TEMPERATURE temperature ;;
       response <- get_answer processed_query ;;
       let assistant_message :=
         {| role := "assistant"; content := response |} in
       append_ui_message assistant_message ;;
       status <- update_status "Processing response for TTS..." ;;
       process_update status 0 0 false None ;;
       new_sentences <- call_split_text_into_sentences response ;;
       log "info"
         ("Split response into " ++ str_of_int (len new_sentences)
          ++ " sentences") ;;
       if negb (truthy_list new_sentences) then
         status <- update_status "No valid sentences found in response." ;;
         process_update status 0 0 false None ;;
         ret None
       else
         let start_idx := 0 in
         let end_idx := len new_sentences in
         with_lock (store_sentences new_sentences) ;;
         status <- update_status
           ("Starting audio generation for " ++ str_of_int end_idx
            ++ " sentences...") ;;
         process_update status start_idx end_idx true None ;;
         ret None)
      (fun e =>
         let error_msg := "Error during query: " ++ str e in
         log "exception" error_msg ;;
         messages <- gets (fun w => ui_messages (self w)) ;;
         (if negb (truthy_list messages)
             || match last_item messages with
                | Some m => negb (role m =? "assistant")
                | None => true
                end
          then append_ui_message
                 {| role := "assistant"; content := "Error: " ++ str e |}
          else ret tt) ;;
         status <- update_status error_msg ;;
         process_update status 0 0 false None ;;
         ret None).

Definition call_sentence_generator_loop
    (start_index end_index : Z) (active : bool) (temperature speed_factor : Q)
    : M LoopUpdate Generator :=
  fun w =>
    {| outcome :=
         Ok (sentence_generator_loop
               w start_index end_index active temperature speed_factor);
       world := w;
       trace :=
         [Called (sentence_generator_loop_call
                    start_index end_index active temperature speed_factor)] |}.

(** The [while True] loop of the wrapper over a generator that still has
    [items] to yield. Only an exception of [next] leaves it: the result is
    that exception and the value of the local [next_idx] at that moment. *)
Fixpoint while_True (items : list GenItem) (last_effect : World -> World)
    (last : Exception) (next_idx : Z) : M LoopUpdate (Exception * Z) :=
  match items with
  | [] =>
      emit (Called next_call) ;;
      modify last_effect ;;
      ret (last, next_idx)
  | item :: rest =>
      emit (Called next_call) ;;
      modify (gen_effect item) ;;
      let next_idx := next_idx + 1 in
      status <- gets (fun w => current_status (self w)) ;;
      yield {| lu_status := status_str status; lu_index := next_idx;
               lu_active := gen_active item; lu_audio := gen_audio item |} ;;
      while_True rest last_effect last next_idx
  end.

(** The generator [gradio_sentence_generator_wrapper]. *)
Definition gradio_sentence_generator_wrapper
    (start_index end_index : Z) (active : bool) (temperature speed_factor : Q)
    : M LoopUpdate unit :=
  if negb active then
    status <- gets (fun w => current_status (self w)) ;;
    yield {| lu_status := status_str status; lu_index := start_index;
             lu_active := false; lu_audio := None |}
  else
    generator <- call_sentence_generator_loop
                   start_index end_index active temperature speed_factor ;;
    stopped <- while_True (gen_items generator) (gen_last_effect generator)
                 (gen_end generator) start_index ;;
    let '(e, next_idx) := stopped in
    match e with
    | StopIteration =>
        status <- gets (fun w => current_status (self w)) ;;
        yield {| lu_status := status_str status; lu_index := next_idx;
                 lu_active := false; lu_audio := None |}
    | Error _ =>
        log "error" ("Error in sentence generator wrapper: " ++ str e) ;;
        status <- update_status
                    ("Error during audio generation: " ++ str e) ;;
        yield {| lu_status := status; lu_index := next_idx;
                 lu_active := false; lu_audio := None |}
    end.

(** The five values [clear_session] returns, in the order of the outputs
    of [clear_btn.click]. *)
Record ClearUpdate : Type := {
  cu_chatbot : ChatbotOut;
  cu_status : StatusOut;
  cu_audio : AudioOut;
  cu_index : Z;
  cu_active : bool
}.

Definition clear_session {Y : Type} : M Y ClearUpdate :=
  log "print" "Clearing ChatApp session..." ;;
  the_llm <- gets (fun w => llm (base (self w))) ;;
  match the_llm with
  | Some l =>
      if has_history_manager l then
        emit (Called clear_history_call) ;;
        modify (assign_llm (Some (clear_history l))) ;;
        log "print" "LLM history cleared."
      else ret tt
  | None => ret tt
  end ;;
  store_ui_messages [] ;;
  emit (Called super_clear_session_call) ;;
  modify (with_base super_clear_session) ;;
  model <- gets (fun w => current_model (base (self w))) ;;
  voice <- gets (fun w => current_voice (base (self w))) ;;
  let status_update :=
    "Session cleared. Ready. (Model: " ++ model ++ ", Voice: " ++ voice
    ++ ")" in
  cleared <- clear_ui ;;
  let '(chatbot_val, audio_val) := cleared in
  status <- update_status status_update ;;
  ret {| cu_chatbot := chatbot_val; cu_status := status;
         cu_audio := audio_val; cu_index := 0; cu_active := false |}.

Definition call_AskLLM {Y : Type} (resolved_model_alias : string) : M Y LLM :=
  fun w =>
    {| outcome := AskLLM resolved_model_alias (llm_config w); world := w;
       trace := [Called (AskLLM_call resolved_model_alias)] |}.

Definition update_system_prompt {Y : Type} (new_system_prompt : string)
    : M Y StatusOut :=
  log "print"
    ("Updating system prompt to: " ++ substring 0 100 new_system_prompt
     ++ "...") ;;
  status_update <-
    try_except
      (with_lock
         (store_SYSTEM_MESSAGE (strip new_system_prompt) ;;
          alias <- gets (fun w => current_resolved_alias (base (self w))) ;;
          new_llm <- call_AskLLM alias ;;
          store_llm new_llm ;;
          model <- gets (fun w => current_model (base (self w))) ;;
          ret ("System prompt updated. Model: " ++ model)))
      (fun e =>
         let error_msg := "Error updating system prompt: " ++ str e in
         log "exception" error_msg ;;
         ret error_msg) ;;
  update_status status_update.

(** ** The wiring of [main] *)

(** The values held by the components and [gr.State] cells of the page. *)
Record UI : Type := {
  chatbot : list Message;
  status_output : option string;
  audio_output : option AudioTuple;
  sentence_index : Z;
  sentence_end_index : Z;
  processing_active : bool;
  query_input : string;
  temperature_slider : Q;
  speed_slider : Q
}.

(** The class attribute [current_status = ""]. *)
Definition initial_current_status : string := "".

(** The page as [main] builds it around an application object. *)
Definition initial_UI (w : World) : UI :=
  {| chatbot := [];
     status_output := Some (current_status (self w));
     audio_output := None;
     sentence_index := 0;
     sentence_end_index := 0;
     processing_active := false;
     query_input := "";
     temperature_slider := (9 # 10)%Q;
     speed_slider := (1 # 1)%Q |}.

(** [main] binds the three components before it registers a handler. *)
Definition bind_components (w : World) : World :=
  {| self :=
       {| base := base (self w);
          status_output_component := true;
          chatbot_component := true;
          audio_output_component := true;
          current_status := current_status (self w);
          ui_messages := ui_messages (self w) |};
     llm_config := llm_config w |}.

Definition shown_status (s : StatusOut) : option string :=
  match s with
  | status_None => None
  | status_str v => Some v
  | status_update v => Some v
  end.

Definition shown_chatbot (c : ChatbotOut) : list Message :=
  match c with
  | chatbot_raw v => v
  | chatbot_update v => v
  end.

Definition shown_audio (a : AudioOut) : option AudioTuple :=
  match a with
  | audio_raw v => v
  | audio_update v => v
  end.

(** [process_outputs]: chatbot, status_output, sentence_index,
    sentence_end_index, processing_active, audio_output. *)
Definition process_outputs (ui : UI) (y : ProcessUpdate) : UI :=
  {| chatbot := pu_messages y;
     status_output := shown_status (pu_status y);
     audio_output := pu_audio y;
     sentence_index := pu_start y;
     sentence_end_index := pu_end y;
     processing_active := pu_active y;
     query_input := query_input ui;
     temperature_slider := temperature_slider ui;
     speed_slider := speed_slider ui |}.

(** [loop_outputs]: status_output, sentence_index, processing_active,
    audio_output. *)
Definition loop_outputs (ui : UI) (y : LoopUpdate) : UI :=
  {| chatbot := chatbot ui;
     status_output := shown_status (lu_status y);
     audio_output := lu_audio y;
     sentence_index := lu_index y;
     sentence_end_index := sentence_end_index ui;
     processing_active := lu_active y;
     query_input := query_input ui;
     temperature_slider := temperature_slider ui;
     speed_slider := speed_slider ui |}.

(** The outputs of [clear_btn.click]: chatbot, status_output, audio_output,
    sentence_index, processing_active. *)
Definition clear_outputs (ui : UI) (c : ClearUpdate) : UI :=
  {| chatbot := shown_chatbot (cu_chatbot c);
     status_output := shown_status (cu_status c);
     audio_output := shown_audio (cu_audio c);
     sentence_index := cu_index c;
     sentence_end_index := sentence_end_index ui;
     processing_active := cu_active c;
     query_input := query_input ui;
     temperature_slider := temperature_slider ui;
     speed_slider := speed_slider ui |}.

Definition set_status_output (v : option string) (ui : UI) : UI :=
  {| chatbot := chatbot ui;
     status_output := v;
     audio_output := audio_output ui;
     sentence_index := sentence_index ui;
     sentence_end_index := sentence_end_index ui;
     processing_active := processing_active ui;
     query_input := query_input ui;
     temperature_slider := temperature_slider ui;
     speed_slider := speed_slider ui |}.

Definition set_query_input (v : string) (ui : UI) : UI :=
  {| chatbot := chatbot ui;
     status_output := status_output ui;
     audio_output := audio_output ui;
     sentence_index := sentence_index ui;
     sentence_end_index := sentence_end_index ui;
     processing_active := processing_active ui;
     query_input := v;
     temperature_slider := temperature_slider ui;
     speed_slider := speed_slider ui |}.

(** The click on [clear_btn]. *)
Definition clear_click (ui : UI) (w : World) : UI * World :=
  let r := clear_session (Y := Empty_set) w in
  match outcome r with
  | Ok c => (clear_outputs ui c, world r)
  | Raise _ => (ui, world r)
  end.

(** What one submission of the query box leaves behind: the page, the
    world, and the values the two generators of the chain yielded. *)
Record Turn : Type := {
  turn_ui : UI;
  turn_world : World;
  turn_process : list ProcessUpdate;
  turn_loop : list LoopUpdate;
  turn_calls : list Call
}.

(** The chain of [query_input.submit] (and of [submit_btn.click]):
    interrupt and reset, process the query, clear the input box, run the
    sentence loop on the values the page holds by then. *)
Definition submit (ui : UI) (w : World) : Turn :=
  let '(status, w1) := interrupt_and_reset w in
  let ui1 := set_status_output (shown_status status) ui in
  let r2 := process_query (query_input ui1) (temperature_slider ui1) w1 in
  let ui2 := fold_left process_outputs (yields (trace r2)) ui1 in
  let ui3 := set_query_input "" ui2 in
  let r4 := gradio_sentence_generator_wrapper
              (sentence_index ui3) (sentence_end_index ui3)
              (processing_active ui3)
              (temperature_slider ui3) (speed_slider ui3) (world r2) in
  let ui4 := fold_left loop_outputs (yields (trace r4)) ui3 in
  {| turn_ui := ui4; turn_world := world r4;
     turn_process := yields (trace r2);
     turn_loop := yields (trace r4);
     turn_calls := (calls (trace r2) ++ calls (trace r4))%list |}.

(** ** Runs, for the proofs *)

(** The run of a continuation, after the events [t]. *)
Definition prepend {Y A : Type} (t : list (Event Y)) (r : Run Y A)
    : Run Y A :=
  match r with
  | {| outcome := o; world := w; trace := t' |} =>
      {| outcome := o; world := w; trace := (t ++ t')%list |}
  end.

(** The run of a [try] statement whose body ran as [r]. *)
Definition catch {Y A : Type} (r : Run Y A) (handler : Exception -> M Y A)
    : Run Y A :=
  match r with
  | {| outcome := Ok a; world := w; trace := t |} =>
      {| outcome := Ok a; world := w; trace := t |}
  | {| outcome := Raise e; world := w; trace := t |} =>
      prepend t (handler e w)
  end.

(** The run of a [with self.lock] statement whose body ran as [r]. *)
Definition locked {Y A : Type} (r : Run Y A) : Run Y A :=
  match r with
  | {| outcome := o; world := w; trace := t |} =>
      {| outcome := o; world := w;
         trace := (LockAcquire :: t ++ [LockRelease])%list |}
  end.

(** The run of what follows a statement that ran as [r]. *)
Definition continue {Y A B : Type} (r : Run Y A) (k : A -> M Y B)
    : Run Y B :=
  match r with
  | {| outcome := Ok a; world := w; trace := t |} => prepend t (k a w)
  | {| outcome := Raise e; world := w; trace := t |} =>
      {| outcome := Raise e; world := w; trace := t |}
  end.

(** The [llm] attribute once [get_answer] has run, and the events of that
    call. *)
Definition llm_after (query : string) (w : World) : option LLM :=
  llm (base (self (world (get_answer (Y := ProcessUpdate) query w)))).

Definition get_answer_events {Y : Type} (query : string) (w : World)
    : list (Event Y) :=
  match llm (base (self w)) with
  | Some _ => [Called (llm_query_call query)]
  | None => []
  end.

(** The status a handler gets back from [update_status]. *)
Definition status_of (w : World) (message : string) : StatusOut :=
  if status_output_component (self w)
  then status_update message else status_None.

(** The stations of a turn of [process_query] on a query that is not
    blank, and the events that lead from one to the next: the turn has
    begun (lists reset, user message appended, first update yielded), the
    LLM has been asked, its answer has been appended and shown. *)
Definition user_message (query : string) : Message :=
  {| role := "user"; content := strip query |}.

Definition begun_status (w : World) : string :=
  "Processing query with " ++ current_model (base (self w)) ++ "...".

Definition begun (query : string) (w : World) : World :=
  assign_current_status (begun_status w)
    (assign_ui_messages (ui_messages (self w) ++ [user_message query])%list
       (assign_audio_segments [] (assign_sentences [] w))).

Definition begun_events (query : string) (w : World)
    : list (Event ProcessUpdate) :=
  [LockAcquire; Wrote (to_sentences []); Wrote (to_audio_segments []);
   LockRelease;
   Wrote (ui_messages_append (user_message query));
   Wrote (to_current_status (begun_status w));
   Yield {| pu_messages := (ui_messages (self w) ++ [user_message query])%list;
            pu_status := status_of w (begun_status w);
            pu_start := 0; pu_end := 0;
            pu_active := false; pu_audio := None |}].

Definition asked (query : string) (temperature : Q) (w : World) : World :=
  assign_llm
    (llm_after (strip query) (assign_TEMPERATURE temperature (begun query w)))
    (assign_TEMPERATURE temperature (begun query w)).

Definition asked_events (query : string) (temperature : Q) (w : World)
    : list (Event ProcessUpdate) :=
  Wrote (to_TEMPERATURE temperature)
  :: get_answer_events (strip query)
       (assign_TEMPERATURE temperature (begun query w)).

Definition assistant_message (response : string) : Message :=
  {| role := "assistant"; content := response |}.

Definition answered (query : string) (temperature : Q) (response : string)
    (w : World) : World :=
  assign_current_status "Processing response for TTS..."
    (assign_ui_messages
       (ui_messages (self w) ++
        [user_message query; assistant_message response])%list
       (asked query temperature w)).

Definition answered_events (query : string) (response : string) (w : World)
    : list (Event ProcessUpdate) :=
  [Wrote (ui_messages_append (assistant_message response));
   Wrote (to_current_status "Processing response for TTS...");
   Yield {| pu_messages :=
              (ui_messages (self w) ++
               [user_message query; assistant_message response])%list;
            pu_status := status_of w "Processing response for TTS...";
            pu_start := 0; pu_end := 0;
            pu_active := false; pu_audio := None |};
   Called (split_text_into_sentences_call response)].

(** What the playback wrapper yields last, after the generator has come
    to its end and left the world [w]. *)
Definition closing_update (last : Exception) (next_idx : Z) (w : World)
    : LoopUpdate :=
  match last with
  | StopIteration =>
      {| lu_status := status_str (current_status (self w));
         lu_index := next_idx; lu_active := false; lu_audio := None |}
  | Error _ =>
      {| lu_status :=
           status_of w ("Error during audio generation: " ++ str last);
         lu_index := next_idx; lu_active := false; lu_audio := None |}
  end.

(** The last update of a turn that ends in the handler of
    [process_query]. *)
Definition error_status (e : Exception) : string :=
  "Error during query: " ++ str e.

Definition error_message (e : Exception) : Message :=
  {| role := "assistant"; content := "Error: " ++ str e |}.

End ChatApp.

Arguments outcome {LLM Y A} r.
Arguments world {LLM Y A} r.
Arguments trace {LLM Y A} r.

Arguments WebAppBase : clear implicits.
Arguments ChatApp : clear implicits.
Arguments World : clear implicits.
Arguments GenItem : clear implicits.
Arguments Generator : clear implicits.
Arguments Run : clear implicits.
Arguments M : clear implicits.

(** ** Sample collaborators and worlds

    Concrete stand-ins for the collaborators, with [unit] for the [AskLLM]
    objects, on which the properties below are exercised. *)

Definition sample_base : WebAppBase unit :=
  {| llm := Some tt;
     sentences := ["An old sentence."];
     audio_segments := [(24000, [1; 2; 3])];
     current_model := "dans-personalityengine";
     current_voice := "maya";
     current_resolved_alias := "dans" |}.

(** An application object, with its components bound by [main] or not. *)
Definition sample_world (bound : bool) : World unit :=
  {| self :=
       {| base := sample_base;
          status_output_component := bound;
          chatbot_component := bound;
          audio_output_component := bound;
          current_status := "";
          ui_messages := [] |};
     llm_config :=
       {| SYSTEM_MESSAGE := "You are a personal companion.";
          TEMPERATURE := (9 # 10)%Q |} |}.

(** The same object after one exchange. *)
Definition sample_world_in_use : World unit :=
  {| self :=
       {| base := sample_base;
          status_output_component := true;
          chatbot_component := true;
          audio_output_component := true;
          current_status := "Starting audio generation for 1 sentences...";
          ui_messages :=
            [{| role := "user"; content := "hi" |};
             {| role := "assistant"; content := "Hello there." |}] |};
     llm_config :=
       {| SYSTEM_MESSAGE := "You are a personal companion.";
          TEMPERATURE := (9 # 10)%Q |} |}.

(** The page after that exchange, the sentence played. *)
Definition sample_UI_in_use : UI :=
  {| chatbot :=
       [{| role := "user"; content := "hi" |};
        {| role := "assistant"; content := "Hello there." |}];
     status_output := Some "Starting audio generation for 1 sentences...";
     audio_output := None;
     sentence_index := 1;
     sentence_end_index := 1;
     processing_active := false;
     query_input := "";
     temperature_slider := (9 # 10)%Q;
     speed_slider := (1 # 1)%Q |}.

Definition sample_llm_raising (l : unit) (config : LLMConfig) (query : string)
    : Result string * unit :=
  (Raise (Error "connection refused"), tt).

Definition sample_llm_answering (l : unit) (config : LLMConfig)
    (query : string) : Result string * unit :=
  (Ok "Hello there. How are you today?", tt).

Definition sample_split (text : string) : Result (list string) :=
  Ok ["Hello there."; "How are you today?"].

Definition sample_split_nothing (text : string) : Result (list string) :=
  Ok [].

Definition sample_split_raising (text : string) : Result (list string) :=
  Raise (Error "tokenizer missing").

Definition sample_AskLLM_raising (alias : string) (config : LLMConfig)
    : Result unit :=
  Raise (Error "unknown model").

Definition sample_item (status : string) (active : bool)
    (audio : option AudioTuple) : GenItem unit :=
  {| gen_effect := assign_current_status status;
     gen_active := active;
     gen_audio := audio |}.

(** A generator that is exhausted at once, and one that yields two chunks
    of audio first. *)
Definition sample_generator_empty (w : World unit) (start_index end_index : Z)
    (active : bool) (temperature speed_factor : Q) : Generator unit :=
  {| gen_items := [];
     gen_last_effect := fun w => w;
     gen_end := StopIteration |}.

Definition sample_generator_two (w : World unit) (start_index end_index : Z)
    (active : bool) (temperature speed_factor : Q) : Generator unit :=
  {| gen_items :=
       [sample_item "Generating sentence 1..." true (Some (24000, [7; 8]));
        sample_item "Generating sentence 2..." true (Some (24000, [9]))];
     gen_last_effect := assign_current_status "Done.";
     gen_end := StopIteration |}.

Definition sample_super_clear_session (b : WebAppBase unit)
    : WebAppBase unit :=
  {| llm := llm b; sentences := []; audio_segments := [];
     current_model := current_model b; current_voice := current_voice b;
     current_resolved_alias := current_resolved_alias b |}.

Definition sample_interrupt_and_reset (w : World unit)
    : StatusOut * World unit :=
  (status_str "Ready.", assign_current_status "Ready." w).

Definition sample_AskLLM_answering (alias : string) (config : LLMConfig)
    : Result unit :=
  Ok tt.

(** A generator that yields one chunk and then fails. *)
Definition sample_generator_failing (w : World unit)
    (start_index end_index : Z) (active : bool) (temperature speed_factor : Q)
    : Generator unit :=
  {| gen_items :=
       [sample_item "Generating sentence 1..." true (Some (24000, [7; 8]))];
     gen_last_effect := fun w => w;
     gen_end := Error "CUDA out of memory" |}.

(** The page with " hi " typed into the query box of a new session, and
    with blanks typed during a playback that is at its second sentence. *)
Definition sample_UI_typed (w : World unit) : UI :=
  set_query_input " hi " (initial_UI w).


(** An application object that has lost its [llm] attribute. *)
Definition sample_world_without_llm : World unit :=
  assign_llm None (sample_world true).

(** * Properties *)

(** ** Symbolic execution of a callback *)

(** Runs are computed statement by statement, on a world given field by
    field: every step rewrites the leftmost [bind] whose first statement
    has run, then [tidy] computes the assignments and the attributes
    read. *)
Ltac tidy :=
  cbv beta delta
    [assign_llm assign_sentences assign_audio_segments
     assign_current_status assign_ui_messages assign_SYSTEM_MESSAGE
     assign_TEMPERATURE with_base];
  cbn [prepend catch locked continue outcome world trace app
       self llm_config base llm sentences audio_segments current_model
       current_voice current_resolved_alias status_output_component
       chatbot_component audio_output_component current_status ui_messages
       SYSTEM_MESSAGE TEMPERATURE
       store store_sentences store_audio_segments store_ui_messages
       store_current_status store_SYSTEM_MESSAGE store_TEMPERATURE store_llm
       ret raise gets modify emit yield log with_lock
       call_split_text_into_sentences call_sentence_generator_loop
       call_AskLLM append_ui_message negb].

(** A world, field by field. *)
Ltac fields w :=
  destruct w as [[[w_llm w_sentences w_segments w_model w_voice w_alias]
                  w_status_box w_chatbot_box w_audio_box
                  w_status w_messages]
                 [w_system w_temperature]].

Section Properties.

Context {LLM : Type}.
Variable llm_query : LLM -> LLMConfig -> string -> Result string * LLM.
Variable has_history_manager : LLM -> bool.
Variable clear_history : LLM -> LLM.
Variable AskLLM : string -> LLMConfig -> Result LLM.
Variable split_text_into_sentences : string -> Result (list string).
Variable sentence_generator_loop :
  World LLM -> Z -> Z -> bool -> Q -> Q -> Generator LLM.
Variable super_clear_session : WebAppBase LLM -> WebAppBase LLM.
Variable interrupt_and_reset : World LLM -> StatusOut * World LLM.

Lemma bind_Ok {Y A B : Type} (m : M LLM Y A) (k : A -> M LLM Y B) w a :
  outcome (m w) = Ok a ->
  bind m k w = prepend (trace (m w)) (k a (world (m w))).
Proof.
  intros H. unfold bind, prepend. rewrite H.
  destruct (k a (world (m w))); reflexivity.
Qed.

Lemma bind_Raise {Y A B : Type} (m : M LLM Y A) (k : A -> M LLM Y B) w e :
  outcome (m w) = Raise e ->
  bind m k w =
  {| outcome := Raise e; world := world (m w); trace := trace (m w) |}.
Proof. intros H. unfold bind. rewrite H. reflexivity. Qed.

Lemma try_except_catch {Y A : Type} (body : M LLM Y A) handler w :
  try_except body handler w = catch (body w) handler.
Proof.
  unfold try_except, catch, prepend.
  destruct (body w) as [[a|e] w' t]; cbn [outcome world trace];
    [reflexivity|].
  destruct (handler e w'); reflexivity.
Qed.

Lemma with_lock_locked {Y A : Type} (body : M LLM Y A) w :
  with_lock body w = locked (body w).
Proof. unfold with_lock, locked. destruct (body w); reflexivity. Qed.

Lemma bind_continue {Y A B : Type} (m : M LLM Y A) (k : A -> M LLM Y B) w :
  bind m k w = continue (m w) k.
Proof.
  unfold bind, continue, prepend.
  destruct (m w) as [[a|e] w' t]; cbn [outcome world trace];
    [|reflexivity].
  destruct (k a w'); reflexivity.
Qed.

Lemma last_item_snoc {A : Type} (l : list A) (x : A) :
  last_item (l ++ [x])%list = Some x.
Proof.
  induction l as [|y l IH]; [reflexivity|].
  cbn [app last_item]. destruct (l ++ [x])%list eqn:E.
  - destruct l; discriminate.
  - exact IH.
Qed.

Lemma truthy_list_snoc {A : Type} (l : list A) (x : A) :
  truthy_list (l ++ [x])%list = true.
Proof. destruct l; reflexivity. Qed.

Lemma yields_app {Y : Type} (t1 t2 : list (Event Y)) :
  yields (t1 ++ t2)%list = (yields t1 ++ yields t2)%list.
Proof.
  induction t1 as [|ev t1 IH]; [reflexivity|].
  destruct ev; cbn [app yields]; rewrite IH; reflexivity.
Qed.

Lemma calls_app {Y : Type} (t1 t2 : list (Event Y)) :
  calls (t1 ++ t2)%list = (calls t1 ++ calls t2)%list.
Proof.
  induction t1 as [|ev t1 IH]; [reflexivity|].
  destruct ev; cbn [app calls]; rewrite IH; reflexivity.
Qed.

(** [get_answer] reads the [llm] attribute and the configuration, and
    writes the [llm] attribute. *)
Lemma get_answer_outcome {Y1 Y2 : Type} query (w1 w2 : World LLM) :
  llm (base (self w1)) = llm (base (self w2)) ->
  llm_config w1 = llm_config w2 ->
  outcome (get_answer (Y := Y1) llm_query query w1) =
  outcome (get_answer (Y := Y2) llm_query query w2).
Proof.
  intros Hllm Hcfg. unfold get_answer. rewrite Hllm, Hcfg.
  destruct (llm (base (self w2))) as [l|]; [|reflexivity].
  destruct (llm_query l (llm_config w2) query); reflexivity.
Qed.

Lemma get_answer_world query (w : World LLM) :
  world (get_answer (Y := ProcessUpdate) llm_query query w) =
  assign_llm (llm_after llm_query query w) w.
Proof.
  unfold llm_after, get_answer.
  destruct w as [[[l s a m v r] c1 c2 c3 st msgs] cfg].
  cbn [self base llm llm_config].
  destruct l as [l|]; [|reflexivity].
  destruct (llm_query l cfg query); reflexivity.
Qed.

Lemma get_answer_trace {Y : Type} query (w : World LLM) :
  trace (get_answer (Y := Y) llm_query query w) = get_answer_events query w.
Proof.
  unfold get_answer_events, get_answer.
  destruct (llm (base (self w))) as [l|]; [|reflexivity].
  destruct (llm_query l (llm_config w) query); reflexivity.
Qed.

Lemma update_status_run {Y : Type} message (w : World LLM) :
  update_status (Y := Y) message w =
  {| outcome := Ok (status_of w message);
     world := assign_current_status message w;
     trace := [Wrote (to_current_status message)] |}.
Proof. reflexivity. Qed.

Lemma process_update_run status start_idx end_idx active audio
    (w : World LLM) :
  process_update status start_idx end_idx active audio w =
  {| outcome := Ok tt; world := w;
     trace := [Yield {| pu_messages := ui_messages (self w);
                        pu_status := status;
                        pu_start := start_idx; pu_end := end_idx;
                        pu_active := active; pu_audio := audio |}] |}.
Proof. reflexivity. Qed.

(** One statement: its outcome is computed, or is a hypothesis. *)
Ltac exec1 :=
  first [ erewrite bind_Ok by reflexivity
        | erewrite bind_Raise by reflexivity
        | erewrite bind_Ok by (tidy; eassumption)
        | erewrite bind_Raise by (tidy; eassumption)
        | rewrite try_except_catch ].
(** The step over [get_answer], whose outcome [H] gives on the world that
    holds the temperature of the turn. *)
Ltac ask H :=
  first
    [ erewrite bind_Ok
        by (erewrite get_answer_outcome; [exact H|reflexivity|reflexivity])
    | erewrite bind_Raise
        by (erewrite get_answer_outcome; [exact H|reflexivity|reflexivity]) ];
  rewrite get_answer_world, get_answer_trace; tidy.

(** The stations of a turn, written out; worlds as plain records; the
    end of a path lemma. *)
Ltac stations :=
  unfold answered, answered_events, asked, asked_events, begun, begun_events,
    begun_status, status_of, user_message, assistant_message, error_status,
    error_message.

Ltac flat :=
  cbv beta iota delta
    [assign_llm assign_sentences assign_audio_segments
     assign_current_status assign_ui_messages assign_SYSTEM_MESSAGE
     assign_TEMPERATURE with_base
     self llm_config base llm sentences audio_segments current_model
     current_voice current_resolved_alias status_output_component
     chatbot_component audio_output_component current_status ui_messages
     SYSTEM_MESSAGE TEMPERATURE].

Ltac done :=
  tidy; stations; flat; rewrite <- ?app_assoc; cbn [app]; reflexivity.

Ltac exec :=
  repeat (exec1; rewrite ?update_status_run, ?process_update_run; tidy).

(** ** The four ways through [process_query] on a query that is not blank

    The run of the whole turn, by what the LLM and the splitting of its
    answer do. *)

Section Paths.

Variables (query : string) (temperature : Q).
Hypothesis not_blank : truthy_str (strip query) = true.

Lemma process_query_llm_raises (w : World LLM) e :
  outcome (get_answer (Y := ProcessUpdate) llm_query (strip query)
             (assign_TEMPERATURE temperature w)) = Raise e ->
  process_query llm_query split_text_into_sentences query temperature w =
  {| outcome := Ok None;
     world :=
       assign_current_status (error_status e)
         (assign_ui_messages
            (ui_messages (self w) ++ [user_message query; error_message e])%list
            (asked llm_query query temperature w));
     trace :=
       (begun_events query w ++ asked_events query temperature w ++
        [Logged "exception" (error_status e);
         Wrote (ui_messages_append (error_message e));
         Wrote (to_current_status (error_status e));
         Yield {| pu_messages :=
                    (ui_messages (self w) ++
                     [user_message query; error_message e])%list;
                  pu_status := status_of w (error_status e);
                  pu_start := 0; pu_end := 0;
                  pu_active := false; pu_audio := None |}])%list |}.
Proof.
  intros Hraise.
  unfold process_query. rewrite not_blank. cbn [negb].
  revert Hraise; fields w; intros Hraise.
  exec. ask Hraise. exec.
  rewrite last_item_snoc, truthy_list_snoc.
  cbn [role negb orb String.eqb Ascii.eqb Bool.eqb].
  exec.
  done.
Qed.

Lemma process_query_split_raises (w : World LLM) response e :
  outcome (get_answer (Y := ProcessUpdate) llm_query (strip query)
             (assign_TEMPERATURE temperature w)) = Ok response ->
  split_text_into_sentences response = Raise e ->
  process_query llm_query split_text_into_sentences query temperature w =
  {| outcome := Ok None;
     world :=
       assign_current_status (error_status e)
         (answered llm_query query temperature response w);
     trace :=
       (begun_events query w ++ asked_events query temperature w ++
        answered_events query response w ++
        [Logged "exception" (error_status e);
         Wrote (to_current_status (error_status e));
         Yield {| pu_messages :=
                    (ui_messages (self w) ++
                     [user_message query; assistant_message response])%list;
                  pu_status := status_of w (error_status e);
                  pu_start := 0; pu_end := 0;
                  pu_active := false; pu_audio := None |}])%list |}.
Proof.
  intros Hanswer Hsplit.
  unfold process_query. rewrite not_blank. cbn [negb].
  revert Hanswer; fields w; intros Hanswer.
  exec. ask Hanswer. exec.
  rewrite last_item_snoc, truthy_list_snoc.
  cbn [role negb orb]. rewrite String.eqb_refl. cbn [negb].
  exec. done.
Qed.

Lemma process_query_no_sentences (w : World LLM) response :
  outcome (get_answer (Y := ProcessUpdate) llm_query (strip query)
             (assign_TEMPERATURE temperature w)) = Ok response ->
  split_text_into_sentences response = Ok [] ->
  process_query llm_query split_text_into_sentences query temperature w =
  {| outcome := Ok None;
     world :=
       assign_current_status "No valid sentences found in response."
         (answered llm_query query temperature response w);
     trace :=
       (begun_events query w ++ asked_events query temperature w ++
        answered_events query response w ++
        [Logged "info" "Split response into 0 sentences";
         Wrote (to_current_status "No valid sentences found in response.");
         Yield {| pu_messages :=
                    (ui_messages (self w) ++
                     [user_message query; assistant_message response])%list;
                  pu_status :=
                    status_of w "No valid sentences found in response.";
                  pu_start := 0; pu_end := 0;
                  pu_active := false; pu_audio := None |}])%list |}.
Proof.
  intros Hanswer Hsplit.
  unfold process_query. rewrite not_blank. cbn [negb].
  revert Hanswer; fields w; intros Hanswer.
  exec. ask Hanswer. exec. cbn [truthy_list]. exec. done.
Qed.

Lemma process_query_sentences (w : World LLM) response first rest :
  outcome (get_answer (Y := ProcessUpdate) llm_query (strip query)
             (assign_TEMPERATURE temperature w)) = Ok response ->
  split_text_into_sentences response = Ok (first :: rest) ->
  let new_sentences := first :: rest in
  let started :=
    "Starting audio generation for " ++ str_of_int (len new_sentences)
    ++ " sentences..." in
  process_query llm_query split_text_into_sentences query temperature w =
  {| outcome := Ok None;
     world :=
       assign_current_status started
         (assign_sentences new_sentences
            (answered llm_query query temperature response w));
     trace :=
       (begun_events query w ++ asked_events query temperature w ++
        answered_events query response w ++
        [Logged "info"
           ("Split response into " ++ str_of_int (len new_sentences)
            ++ " sentences");
         LockAcquire; Wrote (to_sentences new_sentences); LockRelease;
         Wrote (to_current_status started);
         Yield {| pu_messages :=
                    (ui_messages (self w) ++
                     [user_message query; assistant_message response])%list;
                  pu_status := status_of w started;
                  pu_start := 0; pu_end := len new_sentences;
                  pu_active := true; pu_audio := None |}])%list |}.
Proof.
  intros Hanswer Hsplit new_sentences started.
  unfold process_query. rewrite not_blank. cbn [negb].
  revert Hanswer; fields w; intros Hanswer.
  exec. ask Hanswer. exec. cbn [truthy_list]. exec. done.
Qed.




Lemma process_query_blank (w : World LLM) :
  truthy_str (strip query) = false ->
  process_query llm_query split_text_into_sentences query temperature w =
  {| outcome :=
       Ok (Some {| pu_messages := ui_messages (self w);
                   pu_status := status_str (current_status (self w));
                   pu_start := 0; pu_end := 0;
                   pu_active := false; pu_audio := None |});
     world := w;
     trace := [] |}.
Proof.
  intros Hblank. unfold process_query. rewrite Hblank. reflexivity.
Qed.

End Paths.

Lemma truthy_str_true (s : string) : s <> "" -> truthy_str s = true.
Proof. destruct s; [congruence|reflexivity]. Qed.

Lemma truthy_str_false (s : string) : s = "" -> truthy_str s = false.
Proof. intros ->. reflexivity. Qed.

(** ** The playback loop *)

Lemma prepend_outcome {Y A : Type} (t : list (Event Y)) (r : Run LLM Y A) :
  outcome (prepend t r) = outcome r.
Proof. destruct r; reflexivity. Qed.

Lemma prepend_world {Y A : Type} (t : list (Event Y)) (r : Run LLM Y A) :
  world (prepend t r) = world r.
Proof. destruct r; reflexivity. Qed.

Lemma prepend_trace {Y A : Type} (t : list (Event Y)) (r : Run LLM Y A) :
  trace (prepend t r) = (t ++ trace r)%list.
Proof. destruct r; reflexivity. Qed.

(** The indices [start + 1], ..., [start + n]. *)
Lemma indices_step (start : Z) (n : nat) :
  map (fun k => start + Z.of_nat k) (seq 1 (S n)) =
  (start + 1) :: map (fun k => (start + 1) + Z.of_nat k) (seq 1 n).
Proof.
  cbn [seq map]. f_equal.
  rewrite <- seq_shift, map_map. apply map_ext. intros k. lia.
Qed.

(** The loop runs through the items of the generator: it leaves with the
    exception that ends the generator, has advanced [next_idx] once per
    item, and has yielded one update per item, numbered from
    [next_idx + 1]. *)
Lemma while_True_run (items : list (GenItem LLM)) last_effect last :
  forall (next_idx : Z) (w : World LLM),
    let r := while_True items last_effect last next_idx w in
    outcome r = Ok (last, next_idx + len items) /\
    map lu_index (yields (trace r)) =
      map (fun k => next_idx + Z.of_nat k) (seq 1 (length items)) /\
    map lu_active (yields (trace r)) = map gen_active items /\
    map lu_audio (yields (trace r)) = map gen_audio items /\
    calls (trace r) = repeat next_call (S (length items)).
Proof.
  induction items as [|item rest IH]; intros next_idx w.
  - cbn. repeat split. f_equal. f_equal. unfold len. cbn. lia.
  - cbn zeta. cbn [while_True].
    exec.
    specialize (IH (next_idx + 1) (gen_effect item w)).
    cbn zeta in IH. destruct IH as (Ho & Hi & Ha & Hau & Hc).
    rewrite !prepend_outcome, !prepend_trace.
    cbn [app yields calls map]. rewrite Ho, Hi, Ha, Hau, Hc.
    repeat split.
    + f_equal. f_equal. unfold len. cbn [length]. lia.
    + cbn [length]. symmetry. apply indices_step.
Qed.

Lemma wrapper_active_run start_index end_index temperature speed_factor
    (w : World LLM) :
  let generator :=
    sentence_generator_loop
      w start_index end_index true temperature speed_factor in
  let looped :=
    while_True (gen_items generator) (gen_last_effect generator)
      (gen_end generator) start_index w in
  let r :=
    gradio_sentence_generator_wrapper sentence_generator_loop
      start_index end_index true temperature speed_factor w in
  outcome r = Ok tt /\
  yields (trace r) =
    (yields (trace looped) ++
     [closing_update (gen_end generator)
        (start_index + len (gen_items generator)) (world looped)])%list /\
  calls (trace r) =
    (sentence_generator_loop_call
       start_index end_index true temperature speed_factor
     :: calls (trace looped)).
Proof.
  intros generator looped r.
  destruct (while_True_run (gen_items generator) (gen_last_effect generator)
              (gen_end generator) start_index w)
    as (Hout & _).
  fold looped in Hout.
  subst r. unfold gradio_sentence_generator_wrapper. cbn [negb].
  exec. fold generator. fold looped.
  destruct (gen_end generator) as [|text]; exec;
    rewrite ?prepend_outcome, ?prepend_trace;
    cbn [outcome trace world app yields calls];
    rewrite ?yields_app, ?calls_app;
    cbn [yields calls closing_update str]; rewrite ?app_nil_r;
    repeat split.
Qed.

(** The loop that does not start. *)
Lemma wrapper_inactive_run start_index end_index temperature speed_factor
    (w : World LLM) :
  gradio_sentence_generator_wrapper sentence_generator_loop
    start_index end_index false temperature speed_factor w =
  {| outcome := Ok tt; world := w;
     trace := [Yield {| lu_status := status_str (current_status (self w));
                        lu_index := start_index;
                        lu_active := false; lu_audio := None |}] |}.
Proof. reflexivity. Qed.

Lemma yields_get_answer_events query (w : World LLM) :
  yields (get_answer_events (Y := ProcessUpdate) query w) = [].
Proof. unfold get_answer_events. destruct (llm (base (self w))); reflexivity. Qed.

Lemma yields_asked_events query temperature (w : World LLM) :
  yields (asked_events query temperature w) = [].
Proof. unfold asked_events. cbn [yields]. apply yields_get_answer_events. Qed.

(** Reading an attribute of a world given by assignments. *)
Ltac attrs :=
  cbn [outcome world trace
       self llm_config base llm sentences audio_segments current_model
       current_voice current_resolved_alias status_output_component
       chatbot_component audio_output_component current_status ui_messages
       SYSTEM_MESSAGE TEMPERATURE
       answered asked begun
       assign_llm assign_sentences assign_audio_segments
       assign_current_status assign_ui_messages assign_SYSTEM_MESSAGE
       assign_TEMPERATURE with_base].

(** The updates yielded along a trace given station by station. *)
Ltac updates :=
  rewrite ?yields_app, ?yields_asked_events;
  cbn [yields begun_events answered_events app].

(** ** The claims *)

(** C5. A query that is blank once stripped makes [process_query] a
    no-op: the generator ends before it yields anything, nothing is
    assigned, no collaborator is called, and the world (hence the message
    list, the status, the shared sentences and the shared audio segments)
    is as it was. *)
Theorem process_query_blank_is_noop
    (query : string) (temperature : Q) (w : World LLM) :
  strip query = "" ->
  let r := process_query llm_query split_text_into_sentences
             query temperature w in
  yields (trace r) = [] /\
  trace r = [] /\
  world r = w /\
  ui_messages (self (world r)) = ui_messages (self w) /\
  current_status (self (world r)) = current_status (self w) /\
  sentences (base (self (world r))) = sentences (base (self w)) /\
  audio_segments (base (self (world r))) = audio_segments (base (self w)).
Proof.
  intros Hblank r. subst r.
  rewrite (process_query_blank query temperature w
             (truthy_str_false _ Hblank)).
  cbn [trace world yields]. repeat split.
Qed.

(** C6. Called with the active flag false, the wrapper yields the one
    tuple (current status, start index, False, None) and ends: no call to
    the sentence generator, no [next], and the world untouched. *)
Theorem wrapper_inactive_yields_once
    (start_index end_index : Z) (temperature speed_factor : Q)
    (w : World LLM) :
  let r := gradio_sentence_generator_wrapper sentence_generator_loop
             start_index end_index false temperature speed_factor w in
  outcome r = Ok tt /\
  yields (trace r) =
    [{| lu_status := status_str (current_status (self w));
        lu_index := start_index;
        lu_active := false;
        lu_audio := None |}] /\
  calls (trace r) = [] /\
  world r = w.
Proof.
  intros r. subst r. rewrite wrapper_inactive_run.
  cbn [outcome trace world yields calls]. repeat split.
Qed.

(** C7, as amended. With the active flag true the wrapper yields one
    tuple per item of the generator and then one more. The k-th of the
    first carries the index [start_index + k], the active flag and the
    audio of the k-th item; the last one, yielded once the generator has
    stopped or raised, repeats the index [start_index + n] of the n-th
    with active false and no audio. *)
Theorem wrapper_indices
    (start_index end_index : Z) (temperature speed_factor : Q)
    (w : World LLM) :
  let generator :=
    sentence_generator_loop
      w start_index end_index true temperature speed_factor in
  let n := length (gen_items generator) in
  let r := gradio_sentence_generator_wrapper sentence_generator_loop
             start_index end_index true temperature speed_factor w in
  outcome r = Ok tt /\
  map lu_index (yields (trace r)) =
    (map (fun k => start_index + Z.of_nat k) (seq 1 n)
     ++ [start_index + Z.of_nat n])%list /\
  map lu_active (yields (trace r)) =
    (map gen_active (gen_items generator) ++ [false])%list /\
  map lu_audio (yields (trace r)) =
    (map gen_audio (gen_items generator) ++ [None])%list.
Proof.
  intros generator n r.
  destruct (wrapper_active_run start_index end_index temperature
              speed_factor w) as (Hout & Hyields & _).
  destruct (while_True_run (gen_items generator) (gen_last_effect generator)
              (gen_end generator) start_index w)
    as (_ & Hindex & Hactive & Haudio & _).
  fold generator in Hout, Hyields. fold r in Hout, Hyields.
  rewrite Hyields, !map_app, Hindex, Hactive, Haudio.
  split; [exact Hout|].
  destruct (gen_end generator); cbn [closing_update map lu_index lu_active
                                      lu_audio]; repeat split.
Qed.

(** C1, as amended. When the LLM call of a query that is not blank
    raises, [process_query] catches the exception and ends normally. It
    has appended the user message and exactly one assistant entry, the
    error message; the status is the error status; and its last tuple
    carries the messages, indices 0 and 0, active false, no audio, and
    what [update_status] returned for the error status: an update of the
    status box when that component is bound, [None] when it is not.
    The LLM is asked with the temperature of the turn in the
    configuration; [get_answer] reads nothing else of what the turn has
    assigned by then ([get_answer_outcome]). *)
Theorem process_query_llm_error
    (query : string) (temperature : Q) (w : World LLM) (e : Exception) :
  strip query <> "" ->
  outcome (get_answer (Y := ProcessUpdate) llm_query (strip query)
             (assign_TEMPERATURE temperature w)) = Raise e ->
  let r := process_query llm_query split_text_into_sentences
             query temperature w in
  let messages :=
    (ui_messages (self w) ++
     [{| role := "user"; content := strip query |};
      {| role := "assistant"; content := "Error: " ++ str e |}])%list in
  outcome r = Ok None /\
  ui_messages (self (world r)) = messages /\
  current_status (self (world r)) = "Error during query: " ++ str e /\
  exists earlier,
    yields (trace r) =
    (earlier ++
     [{| pu_messages := messages;
         pu_status :=
           if status_output_component (self w)
           then status_update ("Error during query: " ++ str e)
           else status_None;
         pu_start := 0; pu_end := 0;
         pu_active := false; pu_audio := None |}])%list.
Proof.
  intros Hquery Hraise r messages. subst r messages.
  rewrite (process_query_llm_raises query temperature
             (truthy_str_true _ Hquery) w e Hraise).
  attrs. repeat split.
  updates. eexists [_]. reflexivity.
Qed.

(** C8. When the answer to a query that is not blank splits into n >= 1
    sentences, [process_query] stores exactly these as the shared
    sentences, and its last tuple carries the indices 0 and n, active
    true and no audio; bound to the page through [process_outputs], the
    cursor range is (0, n) and the active flag is set. *)
Theorem process_query_starts_playback
    (query : string) (temperature : Q) (w : World LLM)
    (response : string) (new_sentences : list string) (ui : UI) :
  strip query <> "" ->
  outcome (get_answer (Y := ProcessUpdate) llm_query (strip query)
             (assign_TEMPERATURE temperature w)) = Ok response ->
  split_text_into_sentences response = Ok new_sentences ->
  1 <= len new_sentences ->
  let r := process_query llm_query split_text_into_sentences
             query temperature w in
  let page := fold_left process_outputs (yields (trace r)) ui in
  outcome r = Ok None /\
  sentences (base (self (world r))) = new_sentences /\
  (exists earlier status,
     yields (trace r) =
     (earlier ++
      [{| pu_messages := ui_messages (self (world r));
          pu_status := status;
          pu_start := 0; pu_end := len new_sentences;
          pu_active := true; pu_audio := None |}])%list) /\
  sentence_index page = 0 /\
  sentence_end_index page = len new_sentences /\
  processing_active page = true /\
  audio_output page = None.
Proof.
  intros Hquery Hanswer Hsplit Hlen r page.
  destruct new_sentences as [|first rest];
    [unfold len in Hlen; cbn in Hlen; lia|].
  pose proof (process_query_sentences query temperature
                (truthy_str_true _ Hquery) w response first rest
                Hanswer Hsplit) as Hrun.
  cbn zeta in Hrun. subst page r. rewrite Hrun.
  attrs. updates. cbn [fold_left].
  repeat split.
  eexists [_; _], _. reflexivity.
Qed.

(** Membership of an event in a trace given station by station. *)
Ltac members H :=
  cbn [In app] in H;
  lazymatch type of H with
  | _ \/ _ => destruct H as [H|H]; [|members H]
  | False => destruct H
  | In _ (_ ++ _)%list =>
      apply in_app_or in H; destruct H as [H|H]; members H
  | In _ (begun_events _ _) => unfold begun_events in H; members H
  | In _ (asked_events _ _ _) => unfold asked_events in H; members H
  | In _ (answered_events _ _ _) => unfold answered_events in H; members H
  | In _ (get_answer_events _ _) =>
      unfold get_answer_events in H; members H
  | In _ (match ?x with Some _ => _ | None => _ end) =>
      destruct x; members H
  | _ => idtac
  end.

(** C10. At the start of a query that is not blank, [process_query]
    takes the lock, assigns the empty list to the shared sentences and to
    the shared audio segments, releases the lock, and only then appends
    the user message. Afterwards it assigns the audio segments no more,
    and the sentences only to what the new answer splits into: the turn
    ends with no audio segment and with no sentence but these. *)
Theorem process_query_resets_shared_lists
    (query : string) (temperature : Q) (w : World LLM) :
  strip query <> "" ->
  let r := process_query llm_query split_text_into_sentences
             query temperature w in
  (exists rest,
     trace r =
     ([LockAcquire; Wrote (to_sentences []); Wrote (to_audio_segments []);
       LockRelease;
       Wrote (ui_messages_append
                {| role := "user"; content := strip query |})]
      ++ rest)%list /\
     (forall v, ~ In (Wrote (to_audio_segments v)) rest) /\
     (forall v, In (Wrote (to_sentences v)) rest ->
                exists response,
                  split_text_into_sentences response = Ok v)) /\
  audio_segments (base (self (world r))) = [] /\
  (sentences (base (self (world r))) = [] \/
   exists response,
     split_text_into_sentences response =
     Ok (sentences (base (self (world r))))).
Proof.
  intros Hquery r. subst r.
  pose proof (truthy_str_true _ Hquery) as Hq.
  destruct (outcome (get_answer (Y := ProcessUpdate) llm_query (strip query)
                       (assign_TEMPERATURE temperature w)))
    as [response|e] eqn:Hanswer.
  - destruct (split_text_into_sentences response) as [[|first rest]|e]
      eqn:Hsplit.
    + rewrite (process_query_no_sentences query temperature Hq w response
                 Hanswer Hsplit).
      attrs. unfold begun_events at 1. cbn [app].
      split; [|split; [reflexivity|left; reflexivity]].
      eexists. split; [reflexivity|]. split.
      * intros v H. members H; discriminate.
      * intros v H. members H; discriminate.
    + pose proof (process_query_sentences query temperature Hq w response
                    first rest Hanswer Hsplit) as Hrun.
      cbn zeta in Hrun. rewrite Hrun.
      attrs. unfold begun_events at 1. cbn [app].
      split; [|split; [reflexivity|right; eauto]].
      eexists. split; [reflexivity|]. split.
      * intros v H. members H; discriminate.
      * intros v H. members H; try discriminate.
        all: injection H as <-; eauto.
    + rewrite (process_query_split_raises query temperature Hq w response e
                 Hanswer Hsplit).
      attrs. unfold begun_events at 1. cbn [app].
      split; [|split; [reflexivity|left; reflexivity]].
      eexists. split; [reflexivity|]. split.
      * intros v H. members H; discriminate.
      * intros v H. members H; discriminate.
  - rewrite (process_query_llm_raises query temperature Hq w e Hanswer).
    attrs. unfold begun_events at 1. cbn [app].
    split; [|split; [reflexivity|left; reflexivity]].
    eexists. split; [reflexivity|]. split.
    + intros v H. members H; discriminate.
    + intros v H. members H; discriminate.
Qed.

(** C3, as amended. The wrapper yields one tuple after the tuples of the
    items, once the sentence generator has stopped or raised, and that
    tuple carries active false. Whenever the handler of [process_query]
    runs (it logs the exception), it yields one tuple after that, which
    carries active false, and the last entry of the message list is an
    assistant entry: the error entry when it was the LLM call that raised,
    the answer of the assistant otherwise. *)
Theorem inactive_after_end_or_error :
  (forall (start_index end_index : Z) (active : bool)
          (temperature speed_factor : Q) (w : World LLM),
     let generator :=
       sentence_generator_loop
         w start_index end_index active temperature speed_factor in
     let r := gradio_sentence_generator_wrapper sentence_generator_loop
                start_index end_index active temperature speed_factor w in
     exists earlier closing,
       yields (trace r) = (earlier ++ [closing])%list /\
       length earlier =
         (if active then length (gen_items generator) else 0%nat) /\
       lu_active closing = false /\
       lu_audio closing = None) /\
  (forall (query : string) (temperature : Q) (w : World LLM) (msg : string),
     let r := process_query llm_query split_text_into_sentences
                query temperature w in
     In (Logged "exception" msg) (trace r) ->
     (exists before after closing,
        trace r = (before ++ Logged "exception" msg :: after)%list /\
        yields after = [closing] /\
        pu_active closing = false /\
        pu_audio closing = None) /\
     (exists older m,
        ui_messages (self (world r)) = (older ++ [m])%list /\
        role m = "assistant" /\
        (forall e,
           outcome (get_answer (Y := ProcessUpdate) llm_query (strip query)
                      (assign_TEMPERATURE temperature w)) = Raise e ->
           content m = "Error: " ++ str e) /\
        (forall response,
           outcome (get_answer (Y := ProcessUpdate) llm_query (strip query)
                      (assign_TEMPERATURE temperature w)) = Ok response ->
           content m = response))).
Proof.
  split.
  - intros start_index end_index [|] temperature speed_factor w generator r.
    + destruct (wrapper_active_run start_index end_index temperature
                  speed_factor w) as (_ & Hyields & _).
      destruct (while_True_run (gen_items generator)
                  (gen_last_effect generator) (gen_end generator)
                  start_index w) as (_ & _ & Hactive & _).
      fold generator in Hyields. fold r in Hyields.
      eexists _, _. split; [exact Hyields|].
      split.
      * rewrite <- (length_map lu_active), Hactive. apply length_map.
      * destruct (gen_end generator); split; reflexivity.
    + subst r. rewrite wrapper_inactive_run. cbn [trace yields].
      eexists [], _. repeat split.
  - intros query temperature w msg r Hlogged. subst r.
    destruct (truthy_str (strip query)) eqn:Hq.
    2:{ rewrite (process_query_blank query temperature w Hq) in Hlogged.
        destruct Hlogged. }
    destruct (outcome (get_answer (Y := ProcessUpdate) llm_query
                         (strip query) (assign_TEMPERATURE temperature w)))
      as [response|e] eqn:Hanswer.
    + destruct (split_text_into_sentences response) as [[|first rest]|e]
        eqn:Hsplit.
      * rewrite (process_query_no_sentences query temperature Hq w response
                   Hanswer Hsplit) in Hlogged.
        cbn [trace] in Hlogged. members Hlogged; discriminate.
      * pose proof (process_query_sentences query temperature Hq w response
                      first rest Hanswer Hsplit) as Hrun.
        cbn zeta in Hrun. rewrite Hrun in Hlogged.
        cbn [trace] in Hlogged. members Hlogged; discriminate.
      * rewrite (process_query_split_raises query temperature Hq w response
                   e Hanswer Hsplit) in Hlogged |- *.
        cbn [trace] in Hlogged. members Hlogged; try discriminate.
        injection Hlogged as <-.
        attrs. split.
        -- eexists (begun_events query w ++ asked_events query temperature w
                    ++ answered_events query response w)%list, _, _.
           rewrite <- !app_assoc. repeat split.
        -- exists (ui_messages (self w) ++ [user_message query])%list,
             (assistant_message response).
           rewrite <- app_assoc. repeat split.
           ++ intros e' He'. discriminate.
           ++ intros response' Hr. injection Hr as <-. reflexivity.
    + rewrite (process_query_llm_raises query temperature Hq w e Hanswer)
        in Hlogged |- *.
      cbn [trace] in Hlogged. members Hlogged; try discriminate.
      injection Hlogged as <-.
      attrs. split.
      * eexists (begun_events query w
                 ++ asked_events query temperature w)%list, _, _.
        rewrite <- !app_assoc. repeat split.
      * exists (ui_messages (self w) ++ [user_message query])%list,
          (error_message e).
        rewrite <- app_assoc. repeat split.
        -- intros e' He'. injection He' as <-. reflexivity.
        -- intros response Hr. discriminate.
Qed.

(** C4, as amended. Take a submission whose query is not blank and whose
    answer splits into no sentence. The last tuple [process_query] yields
    carries the indices 0 and 0, active false, no audio, and what
    [update_status] returned for the status "No valid sentences found in
    response.": an update of the status box when that component is bound,
    [None] when it is not. No tuple of the turn carries audio: none of
    [process_query], and the sentence loop that follows yields a single
    tuple without audio and never calls the sentence generator. *)
Theorem no_sentences_turn
    (ui : UI) (w : World LLM) (response : string) :
  let started := snd (interrupt_and_reset w) in
  let query := query_input ui in
  let temperature := temperature_slider ui in
  strip query <> "" ->
  outcome (get_answer (Y := ProcessUpdate) llm_query (strip query)
             (assign_TEMPERATURE temperature started)) = Ok response ->
  split_text_into_sentences response = Ok [] ->
  let r := process_query llm_query split_text_into_sentences
             query temperature started in
  let turn := submit llm_query split_text_into_sentences
                sentence_generator_loop interrupt_and_reset ui w in
  turn_process turn = yields (trace r) /\
  (exists earlier,
     yields (trace r) =
     (earlier ++
      [{| pu_messages := ui_messages (self (world r));
          pu_status :=
            if status_output_component (self started)
            then status_update "No valid sentences found in response."
            else status_None;
          pu_start := 0; pu_end := 0;
          pu_active := false; pu_audio := None |}])%list) /\
  current_status (self (world r)) =
    "No valid sentences found in response." /\
  Forall (fun y => pu_audio y = None) (turn_process turn) /\
  turn_loop turn =
    [{| lu_status := status_str "No valid sentences found in response.";
        lu_index := 0; lu_active := false; lu_audio := None |}] /\
  Forall (fun c => is_generator_call c = false) (turn_calls turn) /\
  sentence_index (turn_ui turn) = 0 /\
  sentence_end_index (turn_ui turn) = 0 /\
  processing_active (turn_ui turn) = false /\
  audio_output (turn_ui turn) = None.
Proof.
  intros started query temperature Hquery Hanswer Hsplit r turn.
  subst turn. unfold submit.
  destruct (interrupt_and_reset w) as [status w1] eqn:Hreset.
  cbn [snd] in started. subst started.
  change (query_input (set_status_output (shown_status status) ui))
    with query.
  change (temperature_slider (set_status_output (shown_status status) ui))
    with temperature.
  fold r.
  pose proof (process_query_no_sentences query temperature
                (truthy_str_true _ Hquery) w1 response Hanswer Hsplit)
    as Hrun.
  fold r in Hrun. rewrite Hrun.
  attrs. updates. cbn [fold_left].
  cbn [process_outputs set_query_input sentence_index sentence_end_index
       processing_active temperature_slider speed_slider pu_start pu_end
       pu_active].
  rewrite wrapper_inactive_run. attrs.
  cbn [turn_process turn_loop turn_calls turn_ui yields calls fold_left
       loop_outputs lu_index lu_active lu_audio sentence_index
       sentence_end_index processing_active audio_output app].
  rewrite ?calls_app.
  unfold asked_events, get_answer_events.
  repeat split.
  - eexists [_; _]. reflexivity.
  - repeat constructor.
  - destruct (llm (base (self (assign_TEMPERATURE temperature
                                 (begun query w1)))));
      cbn [calls app]; repeat constructor.
Qed.

Lemma clear_ui_run {Y : Type} (w : World LLM) :
  clear_ui (Y := Y) w =
  {| outcome :=
       Ok (if chatbot_component (self w)
           then chatbot_update [] else chatbot_raw [],
           if audio_output_component (self w)
           then audio_update None else audio_raw None);
     world := w;
     trace := [] |}.
Proof. reflexivity. Qed.

(** C2, as amended. [clear_session] empties the message list, sets the
    status to the message "Session cleared. Ready. (Model: ..., Voice:
    ...)" (not to the empty status of a new object), and returns 0 for the
    start index and False for the active flag. On the page the chat is
    emptied, the audio player cleared, the start index is 0 and the active
    flag false; the end index is no output of the click and keeps its
    value. *)
Theorem clear_session_resets (ui : UI) (w : World LLM) :
  let r := clear_session (Y := Empty_set)
             has_history_manager clear_history super_clear_session w in
  let after := clear_click
                 has_history_manager clear_history super_clear_session
                 ui w in
  let cleared :=
    "Session cleared. Ready. (Model: "
    ++ current_model (base (self (world r))) ++ ", Voice: "
    ++ current_voice (base (self (world r))) ++ ")" in
  snd after = world r /\
  ui_messages (self (world r)) = [] /\
  current_status (self (world r)) = cleared /\
  (exists c,
     outcome r = Ok c /\
     shown_chatbot (cu_chatbot c) = [] /\
     shown_audio (cu_audio c) = None /\
     cu_status c =
       (if status_output_component (self w)
        then status_update cleared else status_None) /\
     cu_index c = 0 /\
     cu_active c = false) /\
  chatbot (fst after) = [] /\
  audio_output (fst after) = None /\
  status_output (fst after) =
    (if status_output_component (self w) then Some cleared else None) /\
  sentence_index (fst after) = 0 /\
  processing_active (fst after) = false /\
  sentence_end_index (fst after) = sentence_end_index ui.
Proof.
  intros r after cleared. subst cleared after r.
  unfold clear_click, clear_session.
  fields w.
  destruct w_llm as [l|]; exec;
    [destruct (has_history_manager l); exec|];
    rewrite clear_ui_run; tidy; exec.
  all: cbn [fst snd self base ui_messages current_status current_model
            current_voice status_output_component].
  all: split; [reflexivity|]; split; [reflexivity|]; split; [reflexivity|].
  all: split; [eexists; split; [reflexivity|];
               destruct w_chatbot_box, w_audio_box; repeat split|].
  all: destruct w_chatbot_box, w_audio_box, w_status_box; repeat split.
Qed.

(** C9, as amended. [update_system_prompt] is not atomic: it returns
    normally whatever the constructor does, never touches the message
    list, and leaves the stripped prompt in [SYSTEM_MESSAGE]. When the
    constructor of the replacement [AskLLM] object raises, the old object
    stays in place, the status is the error message, and the value
    returned is what [update_status] gives for it: an update of the status
    box when that component is bound, [None] when it is not. *)
Theorem update_system_prompt_not_atomic
    (new_system_prompt : string) (w : World LLM) :
  let r := update_system_prompt (Y := Empty_set) AskLLM new_system_prompt w in
  (exists status, outcome r = Ok status) /\
  ui_messages (self (world r)) = ui_messages (self w) /\
  SYSTEM_MESSAGE (llm_config (world r)) = strip new_system_prompt /\
  forall e,
    AskLLM (current_resolved_alias (base (self w)))
      {| SYSTEM_MESSAGE := strip new_system_prompt;
         TEMPERATURE := TEMPERATURE (llm_config w) |} = Raise e ->
    let error_msg := "Error updating system prompt: " ++ str e in
    outcome r =
      Ok (if status_output_component (self w)
          then status_update error_msg else status_None) /\
    current_status (self (world r)) = error_msg /\
    llm (base (self (world r))) = llm (base (self w)) /\
    In (Logged "exception" error_msg) (trace r).
Proof.
  intros r. subst r. unfold update_system_prompt.
  fields w. exec.
  rewrite bind_continue, try_except_catch, with_lock_locked.
  destruct (AskLLM w_alias
              {| SYSTEM_MESSAGE := strip new_system_prompt;
                 TEMPERATURE := w_temperature |}) as [new_llm|e] eqn:Hnew.
  - exec. rewrite update_status_run. tidy.
    split; [eexists; reflexivity|]. split; [reflexivity|].
    split; [reflexivity|]. intros e He. discriminate.
  - exec. rewrite update_status_run. tidy.
    split; [eexists; reflexivity|]. split; [reflexivity|].
    split; [reflexivity|].
    intros e' He'. injection He' as <-. cbn zeta.
    repeat split. cbn [In]. auto 10.
Qed.

(** ** More of what the callbacks do *)

Lemma writes_app {Y : Type} (t1 t2 : list (Event Y)) :
  writes (t1 ++ t2)%list = (writes t1 ++ writes t2)%list.
Proof.
  induction t1 as [|ev t1 IH]; [reflexivity|].
  destruct ev; cbn [app writes]; rewrite IH; reflexivity.
Qed.

(** The run of a turn on a query that is not blank, rewritten in the goal
    along each of its four ways. *)
Ltac paths query temperature w Hq :=
  let response := fresh "response" in
  let e := fresh "e" in
  let first := fresh "first" in
  let rest := fresh "rest" in
  let Hanswer := fresh "Hanswer" in
  let Hsplit := fresh "Hsplit" in
  let Hrun := fresh "Hrun" in
  destruct (outcome (get_answer (Y := ProcessUpdate) llm_query (strip query)
                       (assign_TEMPERATURE temperature w)))
    as [response|e] eqn:Hanswer;
  [ destruct (split_text_into_sentences response) as [[|first rest]|e]
      eqn:Hsplit;
    [ rewrite (process_query_no_sentences query temperature Hq w response
                 Hanswer Hsplit)
    | pose proof (process_query_sentences query temperature Hq w response
                    first rest Hanswer Hsplit) as Hrun;
      cbn zeta in Hrun; rewrite Hrun; clear Hrun
    | rewrite (process_query_split_raises query temperature Hq w response e
                 Hanswer Hsplit) ]
  | rewrite (process_query_llm_raises query temperature Hq w e Hanswer) ].

(** X1. [process_query] never lets an exception out: whatever the LLM and
    the splitting of its answer do, the generator ends normally. *)
Theorem process_query_never_raises
    (query : string) (temperature : Q) (w : World LLM) :
  exists v,
    outcome (process_query llm_query split_text_into_sentences
               query temperature w) = Ok v.
Proof.
  destruct (truthy_str (strip query)) eqn:Hq.
  - paths query temperature w Hq; eexists; reflexivity.
  - rewrite (process_query_blank query temperature w Hq).
    eexists. reflexivity.
Qed.

(** X2. A turn on a query that is not blank only appends to the message
    list, and appends exactly two entries: the user entry with the
    stripped query, then one assistant entry, which is the answer of the
    LLM when it answered and the error entry when it raised. *)
Theorem process_query_appends_two_messages
    (query : string) (temperature : Q) (w : World LLM) :
  strip query <> "" ->
  let r := process_query llm_query split_text_into_sentences
             query temperature w in
  exists m,
    ui_messages (self (world r)) =
      (ui_messages (self w) ++
       [{| role := "user"; content := strip query |}; m])%list /\
    role m = "assistant" /\
    (forall response,
       outcome (get_answer (Y := ProcessUpdate) llm_query (strip query)
                  (assign_TEMPERATURE temperature w)) = Ok response ->
       content m = response) /\
    (forall e,
       outcome (get_answer (Y := ProcessUpdate) llm_query (strip query)
                  (assign_TEMPERATURE temperature w)) = Raise e ->
       content m = "Error: " ++ str e).
Proof.
  intros Hquery r. subst r.
  pose proof (truthy_str_true _ Hquery) as Hq.
  paths query temperature w Hq; attrs.
  1-3: exists (assistant_message response); repeat split;
       [intros r Hr; injection Hr as <-; reflexivity
       |intros e' He'; discriminate].
  exists (error_message e). repeat split.
  - intros r Hr. discriminate.
  - intros e' He'. injection He' as <-. reflexivity.
Qed.

(** X3. No tuple [process_query] yields carries audio, and every one
    carries the start index 0. A tuple carries either active false and the
    end index 0, or active true and, as end index, the number (at least
    one) of the sentences the turn has stored; only the last tuple can be
    of the second kind. There are at most three tuples. *)
Theorem process_query_tuples
    (query : string) (temperature : Q) (w : World LLM) :
  let r := process_query llm_query split_text_into_sentences
             query temperature w in
  Forall
    (fun y =>
       pu_audio y = None /\ pu_start y = 0 /\
       (pu_active y = false /\ pu_end y = 0 \/
        pu_active y = true /\
        pu_end y = len (sentences (base (self (world r)))) /\
        1 <= pu_end y))
    (yields (trace r)) /\
  Forall (fun y => pu_active y = false) (removelast (yields (trace r))) /\
  (length (yields (trace r)) <= 3)%nat.
Proof.
  intros r. subst r.
  destruct (truthy_str (strip query)) eqn:Hq.
  2:{ rewrite (process_query_blank query temperature w Hq).
      cbn [trace yields removelast length].
      repeat split; try constructor; lia. }
  paths query temperature w Hq; attrs; updates; cbn [removelast length].
  all: split; [|split; [repeat constructor|cbn [length]; lia]].
  all: repeat (apply Forall_cons || apply Forall_nil).
  all: cbn [pu_audio pu_start pu_active pu_end].
  all: split; [reflexivity|split; [reflexivity|]].
  all: first [left; split; reflexivity|right].
  repeat split. unfold len. cbn [length]. lia.
Qed.

(** X4. On a query that is not blank, [process_query] yields a tuple
    with active true exactly when the LLM answered and its answer split
    into at least one sentence; an exception, or an answer without
    sentences, never starts the playback. *)
Theorem process_query_active_iff_sentences
    (query : string) (temperature : Q) (w : World LLM) :
  strip query <> "" ->
  let r := process_query llm_query split_text_into_sentences
             query temperature w in
  (exists y, In y (yields (trace r)) /\ pu_active y = true) <->
  (exists response first rest,
     outcome (get_answer (Y := ProcessUpdate) llm_query (strip query)
                (assign_TEMPERATURE temperature w)) = Ok response /\
     split_text_into_sentences response = Ok (first :: rest)).
Proof.
  intros Hquery r. subst r.
  pose proof (truthy_str_true _ Hquery) as Hq.
  paths query temperature w Hq; attrs; updates; split.
  3:{ intros _. eauto. }
  3:{ intros _. eexists.
      split; [right; right; left; reflexivity|reflexivity]. }
  all: match goal with
       | |- (exists y, In y _ /\ _) -> _ =>
           intros (y & Hin & Hactive); cbn [In] in Hin;
           repeat (destruct Hin as [Hin|Hin];
                   [subst y; discriminate Hactive|]);
           destruct Hin
       | |- (exists response first rest, _ /\ _) -> _ =>
           intros (response' & first' & rest' & Hr & Hs);
           first [discriminate Hr
                 |injection Hr as Hr; subst response'; congruence]
       end.
Qed.


(** X6. A turn on a query that is not blank leaves the temperature of
    the turn in the global configuration, also when the LLM fails, and
    leaves alone the system prompt, the bound components, and the model,
    voice and alias in use. *)
Theorem process_query_frame
    (query : string) (temperature : Q) (w : World LLM) :
  strip query <> "" ->
  let r := process_query llm_query split_text_into_sentences
             query temperature w in
  TEMPERATURE (llm_config (world r)) = temperature /\
  SYSTEM_MESSAGE (llm_config (world r)) = SYSTEM_MESSAGE (llm_config w) /\
  status_output_component (self (world r)) =
    status_output_component (self w) /\
  chatbot_component (self (world r)) = chatbot_component (self w) /\
  audio_output_component (self (world r)) =
    audio_output_component (self w) /\
  current_model (base (self (world r))) = current_model (base (self w)) /\
  current_voice (base (self (world r))) = current_voice (base (self w)) /\
  current_resolved_alias (base (self (world r))) =
    current_resolved_alias (base (self w)).
Proof.
  intros Hquery r. subst r.
  pose proof (truthy_str_true _ Hquery) as Hq.
  paths query temperature w Hq; attrs; repeat split.
Qed.

(** X7. [process_query] keeps the lock discipline: it takes the lock
    only when it is free and always releases it, every assignment to the
    shared sentences and audio segments happens under the lock, and it
    never yields or calls a collaborator while it holds the lock. *)
Theorem process_query_lock_discipline
    (query : string) (temperature : Q) (w : World LLM) :
  lock_discipline is_shared_list is_yield_or_call false
    (trace (process_query llm_query split_text_into_sentences
              query temperature w)) = true.
Proof.
  destruct (truthy_str (strip query)) eqn:Hq.
  2:{ rewrite (process_query_blank query temperature w Hq). reflexivity. }
  paths query temperature w Hq; attrs;
    unfold begun_events, asked_events, answered_events, get_answer_events;
    cbn [assign_TEMPERATURE begun assign_current_status assign_ui_messages
         assign_audio_segments assign_sentences with_base self base llm];
    destruct (llm (base (self w))); reflexivity.
Qed.

(** X8. When the status box is bound, the page mirrors the object
    after a turn on a query that is not blank: bound through
    [process_outputs], the tuples leave on the page the message list and
    the status of the object, no audio, and the start index 0. The chat
    mirrors the message list also when the box is not bound. *)
Theorem process_query_page_mirrors_object
    (query : string) (temperature : Q) (w : World LLM) (ui : UI) :
  strip query <> "" ->
  let r := process_query llm_query split_text_into_sentences
             query temperature w in
  let page := fold_left process_outputs (yields (trace r)) ui in
  chatbot page = ui_messages (self (world r)) /\
  audio_output page = None /\
  sentence_index page = 0 /\
  (status_output_component (self w) = true ->
   status_output page = Some (current_status (self (world r)))).
Proof.
  intros Hquery r page. subst page r.
  pose proof (truthy_str_true _ Hquery) as Hq.
  paths query temperature w Hq; attrs; updates; cbn [fold_left];
    cbn [process_outputs chatbot audio_output sentence_index status_output
         pu_messages pu_audio pu_start pu_status];
    unfold status_of; repeat split; intros ->; reflexivity.
Qed.

(** The loop over the generator assigns and logs nothing itself. *)
Lemma while_True_writes (items : list (GenItem LLM)) last_effect last :
  forall (next_idx : Z) (w : World LLM),
    writes (trace (while_True items last_effect last next_idx w)) = [].
Proof.
  induction items as [|item rest IH]; intros next_idx w.
  - reflexivity.
  - cbn [while_True]. exec.
    rewrite !prepend_trace. cbn [app writes]. apply IH.
Qed.

Lemma while_True_not_logged (items : list (GenItem LLM)) last_effect last :
  forall (next_idx : Z) (w : World LLM) level msg,
    ~ In (Logged level msg)
        (trace (while_True items last_effect last next_idx w)).
Proof.
  induction items as [|item rest IH]; intros next_idx w level msg.
  - cbn. intros [H|[]]. discriminate.
  - cbn [while_True]. exec.
    rewrite !prepend_trace. cbn [app In].
    intros [H|[H|H]]; try discriminate. exact (IH _ _ _ _ H).
Qed.

(** The whole run of the wrapper on an active flag, around the run of its
    loop. *)
Lemma wrapper_active_trace start_index end_index temperature speed_factor
    (w : World LLM) :
  let generator :=
    sentence_generator_loop
      w start_index end_index true temperature speed_factor in
  let looped :=
    while_True (gen_items generator) (gen_last_effect generator)
      (gen_end generator) start_index w in
  let closing :=
    closing_update (gen_end generator)
      (start_index + len (gen_items generator)) (world looped) in
  gradio_sentence_generator_wrapper sentence_generator_loop
    start_index end_index true temperature speed_factor w =
  {| outcome := Ok tt;
     world :=
       match gen_end generator with
       | StopIteration => world looped
       | Error text =>
           assign_current_status
             ("Error during audio generation: " ++ text) (world looped)
       end;
     trace :=
       (Called (sentence_generator_loop_call
                  start_index end_index true temperature speed_factor)
        :: trace looped ++
           match gen_end generator with
           | StopIteration => [Yield closing]
           | Error text =>
               [Logged "error"
                  ("Error in sentence generator wrapper: " ++ text);
                Wrote (to_current_status
                         ("Error during audio generation: " ++ text));
                Yield closing]
           end)%list |}.
Proof.
  intros generator looped closing.
  destruct (while_True_run (gen_items generator) (gen_last_effect generator)
              (gen_end generator) start_index w)
    as (Hout & _).
  fold looped in Hout.
  unfold gradio_sentence_generator_wrapper. cbn [negb].
  exec. fold generator. fold looped.
  subst closing.
  destruct (gen_end generator) as [|text]; exec;
    destruct looped as [o w' t]; cbn [outcome world trace prepend app str];
    rewrite <- ?app_assoc; reflexivity.
Qed.

(** X10. When the sentence generator raises, the wrapper catches the
    exception: it ends normally, logs the error, makes "Error during audio
    generation: ..." the status (its only assignment), and closes with a
    tuple that carries active false, no audio, the index reached so far,
    and what [update_status] returned for that status. *)
Theorem wrapper_generator_error
    (start_index end_index : Z) (temperature speed_factor : Q)
    (w : World LLM) (text : string) :
  let generator :=
    sentence_generator_loop
      w start_index end_index true temperature speed_factor in
  gen_end generator = Error text ->
  let r := gradio_sentence_generator_wrapper sentence_generator_loop
             start_index end_index true temperature speed_factor w in
  let status := "Error during audio generation: " ++ text in
  outcome r = Ok tt /\
  writes (trace r) = [to_current_status status] /\
  current_status (self (world r)) = status /\
  In (Logged "error" ("Error in sentence generator wrapper: " ++ text))
     (trace r) /\
  exists earlier,
    yields (trace r) =
    (earlier ++
     [{| lu_status :=
           if status_output_component (self (world r))
           then status_update status else status_None;
         lu_index := start_index + len (gen_items generator);
         lu_active := false;
         lu_audio := None |}])%list.
Proof.
  intros generator Hend r status. subst r status.
  rewrite wrapper_active_trace. fold generator. rewrite Hend.
  cbn [outcome world trace closing_update str].
  split; [reflexivity|].
  split.
  { cbn [writes]. rewrite writes_app, while_True_writes. reflexivity. }
  split; [reflexivity|].
  split.
  { right. apply in_or_app. right. left. reflexivity. }
  cbn [yields]. rewrite yields_app. cbn [yields].
  eexists. reflexivity.
Qed.

(** X11. When the generator is exhausted without an error, the wrapper
    assigns nothing and logs nothing: the status its closing tuple carries
    is the one the generator left behind. *)
Theorem wrapper_exhausted_reports_status
    (start_index end_index : Z) (temperature speed_factor : Q)
    (w : World LLM) :
  let generator :=
    sentence_generator_loop
      w start_index end_index true temperature speed_factor in
  gen_end generator = StopIteration ->
  let r := gradio_sentence_generator_wrapper sentence_generator_loop
             start_index end_index true temperature speed_factor w in
  writes (trace r) = [] /\
  (forall level msg, ~ In (Logged level msg) (trace r)) /\
  exists earlier,
    yields (trace r) =
    (earlier ++
     [{| lu_status := status_str (current_status (self (world r)));
         lu_index := start_index + len (gen_items generator);
         lu_active := false;
         lu_audio := None |}])%list.
Proof.
  intros generator Hend r. subst r.
  rewrite wrapper_active_trace. fold generator. rewrite Hend.
  cbn [outcome world trace closing_update].
  split.
  { cbn [writes]. rewrite writes_app, while_True_writes. reflexivity. }
  split.
  { intros level msg [H|H]; [discriminate|].
    apply in_app_or in H. destruct H as [H|[H|[]]]; [|discriminate].
    exact (while_True_not_logged _ _ _ _ _ _ _ H). }
  cbn [yields]. rewrite yields_app. cbn [yields].
  eexists. reflexivity.
Qed.

(** X12. On an active flag the wrapper creates the generator once, with
    the indices, the flag, the temperature and the speed it was given, and
    then calls [next] once per item and once more, the call that ends the
    generator. *)
Theorem wrapper_generator_calls
    (start_index end_index : Z) (temperature speed_factor : Q)
    (w : World LLM) :
  let generator :=
    sentence_generator_loop
      w start_index end_index true temperature speed_factor in
  calls (trace (gradio_sentence_generator_wrapper sentence_generator_loop
                  start_index end_index true temperature speed_factor w)) =
  (sentence_generator_loop_call
     start_index end_index true temperature speed_factor
   :: repeat next_call (S (length (gen_items generator)))).
Proof.
  intros generator.
  destruct (wrapper_active_run start_index end_index temperature
              speed_factor w) as (_ & _ & Hcalls).
  destruct (while_True_run (gen_items generator) (gen_last_effect generator)
              (gen_end generator) start_index w)
    as (_ & _ & _ & _ & Hnext).
  fold generator in Hcalls. rewrite Hcalls, Hnext. reflexivity.
Qed.

(** X13. When the constructor of the replacement [AskLLM] object
    returns, [update_system_prompt] puts the new object in place of the
    old one, leaves the stripped prompt in the configuration, logs no
    exception, and reports "System prompt updated. Model: ..." with the
    model in use. *)
Theorem update_system_prompt_success
    (new_system_prompt : string) (w : World LLM) (new_llm : LLM) :
  AskLLM (current_resolved_alias (base (self w)))
    {| SYSTEM_MESSAGE := strip new_system_prompt;
       TEMPERATURE := TEMPERATURE (llm_config w) |} = Ok new_llm ->
  let r := update_system_prompt (Y := Empty_set) AskLLM new_system_prompt w in
  let status :=
    "System prompt updated. Model: " ++ current_model (base (self w)) in
  llm (base (self (world r))) = Some new_llm /\
  SYSTEM_MESSAGE (llm_config (world r)) = strip new_system_prompt /\
  TEMPERATURE (llm_config (world r)) = TEMPERATURE (llm_config w) /\
  current_status (self (world r)) = status /\
  outcome r =
    Ok (if status_output_component (self w)
        then status_update status else status_None) /\
  (forall msg, ~ In (Logged "exception" msg) (trace r)).
Proof.
  intros Hnew r status. subst r status. unfold update_system_prompt.
  revert Hnew. fields w. cbn [self base current_resolved_alias llm_config
                              TEMPERATURE]. intros Hnew.
  exec. rewrite bind_continue, try_except_catch, with_lock_locked.
  exec. rewrite update_status_run. tidy.
  repeat split.
  intros msg H. cbn [In] in H.
  repeat (destruct H as [H|H]; [discriminate|]). destruct H.
Qed.


(** X15. [clear_session] clears the history of the LLM exactly when the
    object has an [llm] attribute with a history manager, then hands the
    attributes of the base class to [super().clear_session()], once. It
    never asks the LLM, and it leaves alone the global configuration
    (an edited system prompt survives the clearing) and the bound
    components. *)
Theorem clear_session_collaborators (w : World LLM) :
  let r := clear_session (Y := Empty_set)
             has_history_manager clear_history super_clear_session w in
  let cleared :=
    match llm (base (self w)) with
    | Some l =>
        if has_history_manager l then Some (clear_history l) else Some l
    | None => None
    end in
  calls (trace r) =
    (match llm (base (self w)) with
     | Some l =>
         if has_history_manager l then [clear_history_call] else []
     | None => []
     end ++ [super_clear_session_call])%list /\
  base (self (world r)) =
    super_clear_session (base (self (assign_llm cleared w))) /\
  llm_config (world r) = llm_config w /\
  status_output_component (self (world r)) =
    status_output_component (self w) /\
  chatbot_component (self (world r)) = chatbot_component (self w) /\
  audio_output_component (self (world r)) =
    audio_output_component (self w).
Proof.
  intros r cleared. subst r cleared. unfold clear_session.
  fields w.
  destruct w_llm as [l|]; exec;
    [destruct (has_history_manager l); exec|];
    rewrite clear_ui_run; tidy; exec;
    cbn [self base llm llm_config status_output_component chatbot_component
         audio_output_component calls app assign_llm with_base];
    repeat split.
Qed.

(** X9. On an object without [llm] attribute a query that is not blank
    calls no collaborator: the attribute error is caught like a failure of
    the LLM, shown as the assistant entry and as the status. *)
Theorem process_query_without_llm
    (query : string) (temperature : Q) (w : World LLM) :
  strip query <> "" ->
  llm (base (self w)) = None ->
  let r := process_query llm_query split_text_into_sentences
             query temperature w in
  calls (trace r) = [] /\
  ui_messages (self (world r)) =
    (ui_messages (self w) ++
     [{| role := "user"; content := strip query |};
      {| role := "assistant";
         content := "Error: 'ChatApp' object has no attribute 'llm'" |}])%list
  /\
  current_status (self (world r)) =
    "Error during query: 'ChatApp' object has no attribute 'llm'".
Proof.
  intros Hquery Hllm r. subst r.
  assert (Hraise :
            outcome (get_answer (Y := ProcessUpdate) llm_query (strip query)
                       (assign_TEMPERATURE temperature w)) =
            Raise (Error "'ChatApp' object has no attribute 'llm'")).
  { unfold get_answer. cbn [assign_TEMPERATURE self base llm].
    rewrite Hllm. reflexivity. }
  rewrite (process_query_llm_raises query temperature
             (truthy_str_true _ Hquery) w _ Hraise).
  attrs. rewrite !calls_app.
  unfold begun_events, asked_events, get_answer_events.
  cbn [assign_TEMPERATURE begun assign_current_status assign_ui_messages
       assign_audio_segments assign_sentences with_base self base llm].
  rewrite Hllm. repeat split.
Qed.

(** The sentence loop writes to the status, the index, the flag and the
    audio of the page, and to nothing else. *)
Lemma loop_outputs_frame (ys : list LoopUpdate) :
  forall ui : UI,
    chatbot (fold_left loop_outputs ys ui) = chatbot ui /\
    sentence_end_index (fold_left loop_outputs ys ui) =
      sentence_end_index ui /\
    query_input (fold_left loop_outputs ys ui) = query_input ui.
Proof.
  induction ys as [|y ys IH]; intros ui; [repeat split|].
  cbn [fold_left]. destruct (IH (loop_outputs ui y)) as (H1 & H2 & H3).
  rewrite H1, H2, H3. repeat split.
Qed.

(** X16. A submission whose answer splits into n >= 1 sentences chains
    the two generators: after the LLM and the splitting, the sentence
    generator is created with the cursor (0, n), the active flag true and
    the values of the two sliders, and is run to its end. The page is then
    left with the input box emptied, the chat showing the exchange, the
    active flag false, the end index n, and as start index the number of
    items the generator has yielded. *)
Theorem submit_plays_sentences
    (ui : UI) (w : World LLM) (response first : string)
    (rest : list string) :
  let started := snd (interrupt_and_reset w) in
  let query := query_input ui in
  let temperature := temperature_slider ui in
  strip query <> "" ->
  outcome (get_answer (Y := ProcessUpdate) llm_query (strip query)
             (assign_TEMPERATURE temperature started)) = Ok response ->
  split_text_into_sentences response = Ok (first :: rest) ->
  let n := len (first :: rest) in
  let r := process_query llm_query split_text_into_sentences
             query temperature started in
  let generator :=
    sentence_generator_loop
      (world r) 0 n true temperature (speed_slider ui) in
  let items := length (gen_items generator) in
  let turn := submit llm_query split_text_into_sentences
                sentence_generator_loop interrupt_and_reset ui w in
  turn_calls turn =
    ([llm_query_call (strip query);
      split_text_into_sentences_call response;
      sentence_generator_loop_call 0 n true temperature (speed_slider ui)]
     ++ repeat next_call (S items))%list /\
  map lu_audio (turn_loop turn) =
    (map gen_audio (gen_items generator) ++ [None])%list /\
  query_input (turn_ui turn) = "" /\
  chatbot (turn_ui turn) =
    (ui_messages (self started) ++
     [{| role := "user"; content := strip query |};
      {| role := "assistant"; content := response |}])%list /\
  processing_active (turn_ui turn) = false /\
  sentence_end_index (turn_ui turn) = n /\
  sentence_index (turn_ui turn) = Z.of_nat items /\
  audio_output (turn_ui turn) = None.
Proof.
  intros started query temperature Hquery Hanswer Hsplit n r generator
    items turn.
  subst turn. unfold submit.
  destruct (interrupt_and_reset w) as [status w1] eqn:Hreset.
  cbn [snd] in started. subst started.
  change (query_input (set_status_output (shown_status status) ui))
    with query.
  change (temperature_slider (set_status_output (shown_status status) ui))
    with temperature.
  fold r.
  assert (Hllm : exists l, llm (base (self w1)) = Some l).
  { revert Hanswer. unfold get_answer.
    cbn [assign_TEMPERATURE self base llm].
    destruct (llm (base (self w1))) as [l|]; [eauto|discriminate]. }
  destruct Hllm as (l & Hllm).
  pose proof (process_query_sentences query temperature
                (truthy_str_true _ Hquery) w1 response first rest
                Hanswer Hsplit) as Hrun.
  cbn zeta in Hrun. fold r in Hrun.
  assert (Hpage :
            fold_left process_outputs (yields (trace r))
              (set_status_output (shown_status status) ui) =
            process_outputs ui
              {| pu_messages :=
                   (ui_messages (self w1) ++
                    [user_message query; assistant_message response])%list;
                 pu_status :=
                   status_of w1
                     ("Starting audio generation for "
                      ++ str_of_int n ++ " sentences...");
                 pu_start := 0; pu_end := n;
                 pu_active := true; pu_audio := None |}).
  { rewrite Hrun. attrs. updates. reflexivity. }
  assert (Hcalls :
            calls (trace r) =
            [llm_query_call (strip query);
             split_text_into_sentences_call response]).
  { rewrite Hrun. attrs. rewrite !calls_app.
    unfold begun_events, asked_events, answered_events, get_answer_events.
    cbn [assign_TEMPERATURE begun assign_current_status assign_ui_messages
         assign_audio_segments assign_sentences with_base self base llm].
    rewrite Hllm. reflexivity. }
  rewrite Hpage, Hcalls.
  cbn [set_query_input process_outputs sentence_index sentence_end_index
       processing_active temperature_slider speed_slider pu_start pu_end
       pu_active].
  fold temperature.
  destruct (wrapper_active_run 0 n temperature (speed_slider ui) (world r))
    as (_ & Hyields & Hloopcalls).
  destruct (while_True_run (gen_items generator) (gen_last_effect generator)
              (gen_end generator) 0 (world r))
    as (_ & _ & _ & Haudio & Hnext).
  fold generator in Hyields, Hloopcalls.
  cbn [turn_calls turn_loop turn_ui].
  rewrite Hloopcalls, Hnext, Hyields, fold_left_app, map_app, Haudio.
  cbn [fold_left].
  match goal with
  | |- context [fold_left loop_outputs ?ys ?page] =>
      destruct (loop_outputs_frame ys page) as (Hchat & Hend & Hinput)
  end.
  cbn [loop_outputs chatbot sentence_end_index query_input
       processing_active sentence_index audio_output].
  rewrite Hchat, Hend, Hinput.
  destruct (gen_end generator);
    cbn [closing_update map lu_audio lu_index lu_active chatbot
         sentence_end_index query_input app];
    repeat split.
Qed.



(** X19. A submission on which the LLM raises ends without playback:
    the sentence generator is never called, the loop yields its single
    tuple without audio, and the page is left with the error entry last in
    the chat, the active flag false and the input box emptied. *)
Theorem submit_llm_error (ui : UI) (w : World LLM) (e : Exception) :
  let started := snd (interrupt_and_reset w) in
  let query := query_input ui in
  let temperature := temperature_slider ui in
  strip query <> "" ->
  outcome (get_answer (Y := ProcessUpdate) llm_query (strip query)
             (assign_TEMPERATURE temperature started)) = Raise e ->
  let turn := submit llm_query split_text_into_sentences
                sentence_generator_loop interrupt_and_reset ui w in
  Forall (fun c => is_generator_call c = false) (turn_calls turn) /\
  turn_loop turn =
    [{| lu_status := status_str ("Error during query: " ++ str e);
        lu_index := 0; lu_active := false; lu_audio := None |}] /\
  chatbot (turn_ui turn) =
    (ui_messages (self started) ++
     [{| role := "user"; content := strip query |};
      {| role := "assistant"; content := "Error: " ++ str e |}])%list /\
  processing_active (turn_ui turn) = false /\
  audio_output (turn_ui turn) = None /\
  query_input (turn_ui turn) = "".
Proof.
  intros started query temperature Hquery Hraise turn.
  subst turn. unfold submit.
  destruct (interrupt_and_reset w) as [status w1] eqn:Hreset.
  cbn [snd] in started. subst started.
  change (query_input (set_status_output (shown_status status) ui))
    with query.
  change (temperature_slider (set_status_output (shown_status status) ui))
    with temperature.
  rewrite (process_query_llm_raises query temperature
             (truthy_str_true _ Hquery) w1 e Hraise).
  attrs. updates. cbn [fold_left].
  cbn [process_outputs set_query_input sentence_index sentence_end_index
       processing_active temperature_slider speed_slider pu_start pu_end
       pu_active].
  rewrite wrapper_inactive_run. attrs.
  cbn [turn_process turn_loop turn_calls turn_ui yields calls fold_left
       loop_outputs lu_index lu_active lu_audio sentence_index
       sentence_end_index processing_active audio_output app chatbot
       query_input].
  rewrite ?calls_app.
  unfold asked_events, get_answer_events.
  repeat split.
  destruct (llm (base (self (assign_TEMPERATURE temperature
                               (begun query w1)))));
    cbn [calls app]; repeat constructor.
Qed.
End Properties.

(** ** The properties on the sample collaborators *)

(** The sample object with its components bound is the unbound one after
    the binding of [main]. *)
Lemma sample_world_bound :
  bind_components (sample_world false) = sample_world true.
Proof. reflexivity. Qed.

(** C5 at a query of three blanks, on an object in use. *)
Lemma process_query_blank_is_noop_witness :
  strip "   " = "" /\
  trace (process_query sample_llm_answering sample_split
           "   " (7 # 10)%Q sample_world_in_use) = [] /\
  world (process_query sample_llm_answering sample_split
           "   " (7 # 10)%Q sample_world_in_use) = sample_world_in_use.
Proof.
  split; [reflexivity|].
  pose proof (process_query_blank_is_noop
                sample_llm_answering sample_split
                "   " (7 # 10)%Q sample_world_in_use eq_refl) as H.
  cbn zeta in H. destruct H as (_ & Htrace & Hworld & _).
  split; [exact Htrace|exact Hworld].
Defined.

(** C1 on an LLM that refuses the connection, the status box bound. *)
Lemma process_query_llm_error_witness :
  strip " hi " <> "" /\
  outcome (get_answer (Y := ProcessUpdate) sample_llm_raising (strip " hi ")
             (assign_TEMPERATURE (7 # 10)%Q (sample_world true))) =
    Raise (Error "connection refused") /\
  ui_messages
    (self (world (process_query sample_llm_raising sample_split
                    " hi " (7 # 10)%Q (sample_world true)))) =
    [{| role := "user"; content := "hi" |};
     {| role := "assistant"; content := "Error: connection refused" |}] /\
  current_status
    (self (world (process_query sample_llm_raising sample_split
                    " hi " (7 # 10)%Q (sample_world true)))) =
    "Error during query: connection refused".
Proof.
  assert (Hquery : strip " hi " <> "") by (vm_compute; discriminate).
  split; [exact Hquery|]. split; [reflexivity|].
  pose proof (process_query_llm_error sample_llm_raising sample_split
                " hi " (7 # 10)%Q (sample_world true)
                (Error "connection refused") Hquery eq_refl) as H.
  cbn zeta in H. destruct H as (_ & Hmessages & Hstatus & _).
  split; [exact Hmessages|exact Hstatus].
Defined.

(** C1 as first stated fails while the status box is not bound: the last
    tuple then carries [None] in the place of the status, not the error
    status. *)
Lemma unbound_status_box_llm_error :
  strip " hi " <> "" /\
  outcome (get_answer (Y := ProcessUpdate) sample_llm_raising (strip " hi ")
             (assign_TEMPERATURE (7 # 10)%Q (sample_world false))) =
    Raise (Error "connection refused") /\
  exists earlier closing,
    yields (trace (process_query sample_llm_raising sample_split
                     " hi " (7 # 10)%Q (sample_world false))) =
      (earlier ++ [closing])%list /\
    pu_status closing = status_None /\
    shown_status (pu_status closing) <>
      Some "Error during query: connection refused".
Proof.
  split; [vm_compute; discriminate|]. split; [reflexivity|].
  eexists [_], _. split; [vm_compute; reflexivity|].
  split; [reflexivity|discriminate].
Qed.

(** C2 as first stated fails on a session in use: after the click the
    status is the "Session cleared" message, not the empty status of a new
    object, and the end index still is 1. *)
Lemma clear_click_keeps_end_index :
  current_status
    (self (snd (clear_click (fun _ => true) (fun l => l)
                  sample_super_clear_session
                  sample_UI_in_use sample_world_in_use))) =
    "Session cleared. Ready. (Model: dans-personalityengine, Voice: maya)" /\
  current_status
    (self (snd (clear_click (fun _ => true) (fun l => l)
                  sample_super_clear_session
                  sample_UI_in_use sample_world_in_use))) <>
    initial_current_status /\
  sentence_end_index
    (fst (clear_click (fun _ => true) (fun l => l)
            sample_super_clear_session
            sample_UI_in_use sample_world_in_use)) = 1 /\
  sentence_end_index
    (fst (clear_click (fun _ => true) (fun l => l)
            sample_super_clear_session
            sample_UI_in_use sample_world_in_use)) <> 0.
Proof.
  split; [reflexivity|]. split; [vm_compute; discriminate|].
  split; [reflexivity|]. vm_compute. discriminate.
Qed.

(** C3 on an LLM that refuses the connection. *)
Lemma inactive_after_end_or_error_witness :
  In (Logged "exception" "Error during query: connection refused")
     (trace (process_query sample_llm_raising sample_split
               " hi " (7 # 10)%Q (sample_world true))) /\
  exists older m,
    ui_messages
      (self (world (process_query sample_llm_raising sample_split
                      " hi " (7 # 10)%Q (sample_world true)))) =
      (older ++ [m])%list /\
    role m = "assistant".
Proof.
  assert (Hlogged :
            In (Logged "exception" "Error during query: connection refused")
               (trace (process_query sample_llm_raising sample_split
                         " hi " (7 # 10)%Q (sample_world true)))).
  { vm_compute. repeat (first [left; reflexivity|right]). }
  split; [exact Hlogged|].
  destruct (proj2 (inactive_after_end_or_error
                     sample_llm_raising sample_split sample_generator_two)
              " hi " (7 # 10)%Q (sample_world true) _ Hlogged)
    as (_ & older & m & Hmessages & Hrole & _).
  exists older, m. split; [exact Hmessages|exact Hrole].
Defined.

(** C3 as first stated fails when it is the splitting of the answer that
    raises: the handler runs, and the last entry of the message list is the
    answer of the assistant, which does not carry the error text. *)
Lemma split_error_keeps_answer_last :
  In (Logged "exception" "Error during query: tokenizer missing")
     (trace (process_query sample_llm_answering sample_split_raising
               " hi " (7 # 10)%Q (sample_world true))) /\
  exists m,
    last_item
      (ui_messages
         (self (world (process_query sample_llm_answering
                         sample_split_raising
                         " hi " (7 # 10)%Q (sample_world true))))) =
      Some m /\
    content m = "Hello there. How are you today?" /\
    contains "tokenizer missing" (content m) = false.
Proof.
  split; [vm_compute; repeat (first [left; reflexivity|right])|].
  eexists. split; [vm_compute; reflexivity|].
  split; reflexivity.
Qed.

(** C4 on an answer that splits into nothing, the status box bound. *)
Lemma no_sentences_turn_witness :
  strip " hi " <> "" /\
  outcome (get_answer (Y := ProcessUpdate) sample_llm_answering
             (strip " hi ")
             (assign_TEMPERATURE (9 # 10)%Q
                (snd (sample_interrupt_and_reset (sample_world true))))) =
    Ok "Hello there. How are you today?" /\
  sample_split_nothing "Hello there. How are you today?" = Ok [] /\
  Forall (fun y => pu_audio y = None)
    (turn_process
       (submit sample_llm_answering sample_split_nothing
          sample_generator_two sample_interrupt_and_reset
          (set_query_input " hi " (initial_UI (sample_world true)))
          (sample_world true))) /\
  turn_loop
    (submit sample_llm_answering sample_split_nothing
       sample_generator_two sample_interrupt_and_reset
       (set_query_input " hi " (initial_UI (sample_world true)))
       (sample_world true)) =
    [{| lu_status := status_str "No valid sentences found in response.";
        lu_index := 0; lu_active := false; lu_audio := None |}].
Proof.
  assert (Hquery : strip " hi " <> "") by (vm_compute; discriminate).
  split; [exact Hquery|]. split; [reflexivity|]. split; [reflexivity|].
  pose proof (no_sentences_turn sample_llm_answering sample_split_nothing
                sample_generator_two sample_interrupt_and_reset
                (set_query_input " hi " (initial_UI (sample_world true)))
                (sample_world true) "Hello there. How are you today?"
                Hquery eq_refl eq_refl) as H.
  cbn zeta in H. destruct H as (_ & _ & _ & Hprocess & Hloop & _).
  split; [exact Hprocess|exact Hloop].
Defined.

(** C4 as first stated fails while the status box is not bound: the last
    tuple then carries [None] in the place of the status. *)
Lemma unbound_status_box_no_sentences :
  strip " hi " <> "" /\
  outcome (get_answer (Y := ProcessUpdate) sample_llm_answering
             (strip " hi ")
             (assign_TEMPERATURE (7 # 10)%Q (sample_world false))) =
    Ok "Hello there. How are you today?" /\
  sample_split_nothing "Hello there. How are you today?" = Ok [] /\
  exists earlier closing,
    yields (trace (process_query sample_llm_answering sample_split_nothing
                     " hi " (7 # 10)%Q (sample_world false))) =
      (earlier ++ [closing])%list /\
    pu_status closing = status_None /\
    shown_status (pu_status closing) <>
      Some "No valid sentences found in response.".
Proof.
  split; [vm_compute; discriminate|]. split; [reflexivity|].
  split; [reflexivity|].
  eexists [_; _], _. split; [vm_compute; reflexivity|].
  split; [reflexivity|discriminate].
Qed.

(** C7 as first stated fails at the tuple that follows the last item: on a
    generator of two items, started at 0, the indices yielded are 1, 2 and
    2 again, so the third tuple does not carry 0 + 3 and the index has not
    grown. *)
Lemma closing_update_repeats_index :
  map lu_index
    (yields (trace (gradio_sentence_generator_wrapper sample_generator_two
                      0 2 true (9 # 10)%Q (1 # 1)%Q (sample_world true)))) =
    [1; 2; 2] /\
  nth_error
    (map lu_index
       (yields (trace (gradio_sentence_generator_wrapper sample_generator_two
                         0 2 true (9 # 10)%Q (1 # 1)%Q (sample_world true)))))
    (3 - 1) <> Some (0 + 3) /\
  map lu_index
    (yields (trace (gradio_sentence_generator_wrapper sample_generator_empty
                      0 0 true (9 # 10)%Q (1 # 1)%Q (sample_world true)))) =
    [0].
Proof.
  split; [reflexivity|]. split; [vm_compute; discriminate|reflexivity].
Qed.

(** C8 on an answer of two sentences. *)
Lemma process_query_starts_playback_witness :
  strip " hi " <> "" /\
  outcome (get_answer (Y := ProcessUpdate) sample_llm_answering
             (strip " hi ")
             (assign_TEMPERATURE (7 # 10)%Q (sample_world true))) =
    Ok "Hello there. How are you today?" /\
  sample_split "Hello there. How are you today?" =
    Ok ["Hello there."; "How are you today?"] /\
  1 <= len ["Hello there."; "How are you today?"] /\
  sentences
    (base (self (world (process_query sample_llm_answering sample_split
                          " hi " (7 # 10)%Q (sample_world true))))) =
    ["Hello there."; "How are you today?"] /\
  sentence_end_index
    (fold_left process_outputs
       (yields (trace (process_query sample_llm_answering sample_split
                         " hi " (7 # 10)%Q (sample_world true))))
       (initial_UI (sample_world true))) = 2 /\
  processing_active
    (fold_left process_outputs
       (yields (trace (process_query sample_llm_answering sample_split
                         " hi " (7 # 10)%Q (sample_world true))))
       (initial_UI (sample_world true))) = true.
Proof.
  assert (Hquery : strip " hi " <> "") by (vm_compute; discriminate).
  assert (Hlen : 1 <= len ["Hello there."; "How are you today?"])
    by (vm_compute; discriminate).
  split; [exact Hquery|]. split; [reflexivity|]. split; [reflexivity|].
  split; [exact Hlen|].
  pose proof (process_query_starts_playback sample_llm_answering sample_split
                " hi " (7 # 10)%Q (sample_world true)
                "Hello there. How are you today?"
                ["Hello there."; "How are you today?"]
                (initial_UI (sample_world true))
                Hquery eq_refl eq_refl Hlen) as H.
  cbn zeta in H.
  destruct H as (_ & Hsentences & _ & _ & Hend & Hactive & _).
  split; [exact Hsentences|]. split; [exact Hend|exact Hactive].
Defined.

(** C9 on a constructor that does not know the model, the status box
    bound. *)
Lemma update_system_prompt_not_atomic_witness :
  sample_AskLLM_raising
    (current_resolved_alias (base (self (sample_world true))))
    {| SYSTEM_MESSAGE := strip "  Be brief. ";
       TEMPERATURE := TEMPERATURE (llm_config (sample_world true)) |} =
    Raise (Error "unknown model") /\
  SYSTEM_MESSAGE
    (llm_config (world (update_system_prompt (Y := Empty_set)
                          sample_AskLLM_raising "  Be brief. "
                          (sample_world true)))) = "Be brief." /\
  outcome (update_system_prompt (Y := Empty_set)
             sample_AskLLM_raising "  Be brief. " (sample_world true)) =
    Ok (status_update "Error updating system prompt: unknown model").
Proof.
  split; [reflexivity|].
  pose proof (update_system_prompt_not_atomic sample_AskLLM_raising
                "  Be brief. " (sample_world true)) as H.
  cbn zeta in H. destruct H as (_ & _ & Hprompt & Herror).
  split; [exact Hprompt|].
  exact (proj1 (Herror (Error "unknown model") eq_refl)).
Defined.

(** C9 as first stated fails while the status box is not bound: the
    method then returns [None], not an update that carries the error
    message. *)
Lemma unbound_status_box_prompt_error :
  sample_AskLLM_raising
    (current_resolved_alias (base (self (sample_world false))))
    {| SYSTEM_MESSAGE := strip "  Be brief. ";
       TEMPERATURE := TEMPERATURE (llm_config (sample_world false)) |} =
    Raise (Error "unknown model") /\
  outcome (update_system_prompt (Y := Empty_set)
             sample_AskLLM_raising "  Be brief. " (sample_world false)) =
    Ok status_None /\
  shown_status status_None <>
    Some "Error updating system prompt: unknown model".
Proof.
  split; [reflexivity|]. split; [reflexivity|discriminate].
Qed.

(** C10 on an object that holds a sentence and an audio segment of the
    turn before. *)
Lemma process_query_resets_shared_lists_witness :
  strip " hi " <> "" /\
  audio_segments
    (base (self (world (process_query sample_llm_raising sample_split
                          " hi " (7 # 10)%Q (sample_world true))))) = [] /\
  sentences
    (base (self (world (process_query sample_llm_raising sample_split
                          " hi " (7 # 10)%Q (sample_world true))))) = [].
Proof.
  assert (Hquery : strip " hi " <> "") by (vm_compute; discriminate).
  split; [exact Hquery|].
  pose proof (process_query_resets_shared_lists
                sample_llm_raising sample_split
                " hi " (7 # 10)%Q (sample_world true) Hquery) as H.
  cbn zeta in H. destruct H as (_ & Hsegments & _).
  split; [exact Hsegments|reflexivity].
Defined.

(** ** More properties on the sample collaborators *)

(** X2 on an LLM that answers. *)
Lemma process_query_appends_two_messages_witness :
  strip " hi " <> "" /\
  exists m,
    ui_messages
      (self (world (process_query sample_llm_answering sample_split
                      " hi " (7 # 10)%Q sample_world_in_use))) =
      (ui_messages (self sample_world_in_use) ++
       [{| role := "user"; content := strip " hi " |}; m])%list /\
    role m = "assistant".
Proof.
  assert (Hquery : strip " hi " <> "") by (vm_compute; discriminate).
  split; [exact Hquery|].
  destruct (process_query_appends_two_messages
              sample_llm_answering sample_split
              " hi " (7 # 10)%Q sample_world_in_use Hquery)
    as (m & Hmessages & Hrole & _).
  exists m. split; [exact Hmessages|exact Hrole].
Defined.

(** X4 on an answer of two sentences. *)
Lemma process_query_active_iff_sentences_witness :
  strip " hi " <> "" /\
  exists y,
    In y (yields (trace (process_query sample_llm_answering sample_split
                           " hi " (7 # 10)%Q (sample_world true)))) /\
    pu_active y = true.
Proof.
  assert (Hquery : strip " hi " <> "") by (vm_compute; discriminate).
  split; [exact Hquery|].
  apply (proj2 (process_query_active_iff_sentences
                  sample_llm_answering sample_split
                  " hi " (7 # 10)%Q (sample_world true) Hquery)).
  exists "Hello there. How are you today?", "Hello there.",
    ["How are you today?"].
  split; reflexivity.
Defined.

(** X6 on an LLM that refuses the connection. *)
Lemma process_query_frame_witness :
  strip " hi " <> "" /\
  TEMPERATURE
    (llm_config (world (process_query sample_llm_raising sample_split
                          " hi " (7 # 10)%Q (sample_world true)))) =
    (7 # 10)%Q /\
  SYSTEM_MESSAGE
    (llm_config (world (process_query sample_llm_raising sample_split
                          " hi " (7 # 10)%Q (sample_world true)))) =
    "You are a personal companion.".
Proof.
  assert (Hquery : strip " hi " <> "") by (vm_compute; discriminate).
  split; [exact Hquery|].
  pose proof (process_query_frame sample_llm_raising sample_split
                " hi " (7 # 10)%Q (sample_world true) Hquery) as H.
  cbn zeta in H. destruct H as (Htemperature & Hprompt & _).
  split; [exact Htemperature|exact Hprompt].
Defined.

(** X8 on the object as [main] has bound it. *)
Lemma process_query_page_mirrors_object_witness :
  strip " hi " <> "" /\
  status_output_component (self (bind_components (sample_world false))) =
    true /\
  status_output
    (fold_left process_outputs
       (yields (trace (process_query sample_llm_answering sample_split
                         " hi " (7 # 10)%Q
                         (bind_components (sample_world false)))))
       (sample_UI_typed (sample_world false))) =
    Some "Starting audio generation for 2 sentences...".
Proof.
  assert (Hquery : strip " hi " <> "") by (vm_compute; discriminate).
  split; [exact Hquery|]. split; [reflexivity|].
  pose proof (process_query_page_mirrors_object
                sample_llm_answering sample_split
                " hi " (7 # 10)%Q (bind_components (sample_world false))
                (sample_UI_typed (sample_world false)) Hquery) as H.
  cbn zeta in H. destruct H as (_ & _ & _ & Hstatus).
  rewrite (Hstatus eq_refl). reflexivity.
Defined.

(** X9 on the object that has lost its LLM. *)
Lemma process_query_without_llm_witness :
  strip " hi " <> "" /\
  llm (base (self sample_world_without_llm)) = None /\
  calls (trace (process_query sample_llm_answering sample_split
                  " hi " (7 # 10)%Q sample_world_without_llm)) = [].
Proof.
  assert (Hquery : strip " hi " <> "") by (vm_compute; discriminate).
  split; [exact Hquery|]. split; [reflexivity|].
  pose proof (process_query_without_llm sample_llm_answering sample_split
                " hi " (7 # 10)%Q sample_world_without_llm
                Hquery eq_refl) as H.
  cbn zeta in H. exact (proj1 H).
Defined.

(** X10 on a generator that runs out of memory after one chunk. *)
Lemma wrapper_generator_error_witness :
  gen_end (sample_generator_failing (sample_world true)
             0 2 true (9 # 10)%Q (1 # 1)%Q) =
    Error "CUDA out of memory" /\
  current_status
    (self (world (gradio_sentence_generator_wrapper sample_generator_failing
                    0 2 true (9 # 10)%Q (1 # 1)%Q (sample_world true)))) =
    "Error during audio generation: CUDA out of memory".
Proof.
  split; [reflexivity|].
  pose proof (wrapper_generator_error sample_generator_failing
                0 2 (9 # 10)%Q (1 # 1)%Q (sample_world true)
                "CUDA out of memory" eq_refl) as H.
  cbn zeta in H. destruct H as (_ & _ & Hstatus & _). exact Hstatus.
Defined.

(** X11 on a generator of two chunks. *)
Lemma wrapper_exhausted_reports_status_witness :
  gen_end (sample_generator_two (sample_world true)
             0 2 true (9 # 10)%Q (1 # 1)%Q) = StopIteration /\
  writes
    (trace (gradio_sentence_generator_wrapper sample_generator_two
              0 2 true (9 # 10)%Q (1 # 1)%Q (sample_world true))) = [].
Proof.
  split; [reflexivity|].
  pose proof (wrapper_exhausted_reports_status sample_generator_two
                0 2 (9 # 10)%Q (1 # 1)%Q (sample_world true) eq_refl) as H.
  cbn zeta in H. exact (proj1 H).
Defined.

(** X13 on a constructor that returns. *)
Lemma update_system_prompt_success_witness :
  sample_AskLLM_answering
    (current_resolved_alias (base (self (sample_world true))))
    {| SYSTEM_MESSAGE := strip "  Be brief. ";
       TEMPERATURE := TEMPERATURE (llm_config (sample_world true)) |} =
    Ok tt /\
  current_status
    (self (world (update_system_prompt (Y := Empty_set)
                    sample_AskLLM_answering "  Be brief. "
                    (sample_world true)))) =
    "System prompt updated. Model: dans-personalityengine".
Proof.
  split; [reflexivity|].
  pose proof (update_system_prompt_success sample_AskLLM_answering
                "  Be brief. " (sample_world true) tt eq_refl) as H.
  cbn zeta in H. destruct H as (_ & _ & _ & Hstatus & _). exact Hstatus.
Defined.

(** X16 on an answer of two sentences and a generator of two chunks. *)
Lemma submit_plays_sentences_witness :
  strip (query_input (sample_UI_typed (sample_world true))) <> "" /\
  sentence_index
    (turn_ui (submit sample_llm_answering sample_split sample_generator_two
                sample_interrupt_and_reset
                (sample_UI_typed (sample_world true))
                (sample_world true))) = 2 /\
  processing_active
    (turn_ui (submit sample_llm_answering sample_split sample_generator_two
                sample_interrupt_and_reset
                (sample_UI_typed (sample_world true))
                (sample_world true))) = false.
Proof.
  assert (Hquery :
            strip (query_input (sample_UI_typed (sample_world true))) <> "")
    by (vm_compute; discriminate).
  split; [exact Hquery|].
  pose proof (submit_plays_sentences
                sample_llm_answering sample_split sample_generator_two
                sample_interrupt_and_reset
                (sample_UI_typed (sample_world true)) (sample_world true)
                "Hello there. How are you today?" "Hello there."
                ["How are you today?"] Hquery eq_refl eq_refl) as H.
  cbn zeta in H.
  destruct H as (_ & _ & _ & _ & Hactive & _ & Hindex & _).
  split; [exact Hindex|exact Hactive].
Defined.



(** X19 on an LLM that refuses the connection. *)
Lemma submit_llm_error_witness :
  strip (query_input (sample_UI_typed (sample_world true))) <> "" /\
  processing_active
    (turn_ui (submit sample_llm_raising sample_split sample_generator_two
                sample_interrupt_and_reset
                (sample_UI_typed (sample_world true))
                (sample_world true))) = false /\
  chatbot
    (turn_ui (submit sample_llm_raising sample_split sample_generator_two
                sample_interrupt_and_reset
                (sample_UI_typed (sample_world true))
                (sample_world true))) =
    [{| role := "user"; content := "hi" |};
     {| role := "assistant"; content := "Error: connection refused" |}].
Proof.
  assert (Hquery :
            strip (query_input (sample_UI_typed (sample_world true))) <> "")
    by (vm_compute; discriminate).
  split; [exact Hquery|].
  pose proof (submit_llm_error
                sample_llm_raising sample_split sample_generator_two
                sample_interrupt_and_reset
                (sample_UI_typed (sample_world true)) (sample_world true)
                (Error "connection refused") Hquery eq_refl) as H.
  cbn zeta in H. destruct H as (_ & _ & Hchat & Hactive & _).
  split; [exact Hactive|exact Hchat].
Defined.
